(** * TradeLogger: the P&L calculator and the trade ledger of tradeLogger.py

    A shallow embedding of [src/tradeLogger.py].  Python floats are the
    binary64 numbers of [PrimFloat], Python [str] values are [string]s, the
    [trades] table is a finite map from rowid to row, and the operations bound
    to the buttons of the application are functions on an explicit application
    state. *)

From Stdlib Require Import Floats ZArith Ascii String.
From stdpp Require Import gmap strings list sorting.

#[local] Set Warnings "-inexact-float".

Local Open Scope string_scope.
Local Open Scope Z_scope.

(** ** Python strings

    [lower] is [str.lower] on the letters A-Z and passes every other byte of
    the text through; no text outside ASCII has a lower-case form made of
    the letters of "long", so the test [direction.lower() == "long"] is
    decided as Python decides it.  [str.upper] maps letters outside ASCII to
    ASCII letters (U+017F to S, for one), so the operations below take it
    as a parameter; [upper_ascii] is [str.upper] on ASCII texts and serves
    to run them on such texts. *)
Module PyStr.

Definition is_upper (c : ascii) : bool :=
  let n := N_of_ascii c in ((65 <=? n) && (n <=? 90))%N.

Definition is_lower (c : ascii) : bool :=
  let n := N_of_ascii c in ((97 <=? n) && (n <=? 122))%N.

Definition lower_char (c : ascii) : ascii :=
  if is_upper c then ascii_of_N (N_of_ascii c + 32) else c.

Definition upper_char (c : ascii) : ascii :=
  if is_lower c then ascii_of_N (N_of_ascii c - 32) else c.

Fixpoint lower (s : string) : string :=
  match s with
  | EmptyString => EmptyString
  | String c s' => String (lower_char c) (lower s')
  end.

Fixpoint upper_ascii (s : string) : string :=
  match s with
  | EmptyString => EmptyString
  | String c s' => String (upper_char c) (upper_ascii s')
  end.

End PyStr.

(** ** The P&L helper (tradeLogger.py, lines 44-51) *)

(** The default value of the keyword argument [multiplier=1.0]. *)
Definition default_multiplier : float := 1%float.

(** [calculate_pnl(entry, exit, size, direction, commission, multiplier)].
    The arithmetic is Python's float arithmetic, evaluated left to right as
    the source writes it. *)
Definition calculate_pnl (entry exit size : float) (direction : string)
    (commission multiplier : float) : float :=
  let gross :=
    if String.eqb (PyStr.lower direction) "long"
    then ((exit - entry) * size * multiplier)%float
    else ((entry - exit) * size * multiplier)%float in
  let net := (gross - commission * size)%float in
  net.

(** ** Python numbers built from text and from integers *)
Module PyFloat.

(** The conversion a Python [int] undergoes when it meets a float in an
    arithmetic operation: the nearest binary64 number.  (Python raises
    [OverflowError] beyond the float range; the integers of this program are
    the entries of the multiplier table.) *)
Definition of_int (n : Z) : float :=
  SF2Prim (binary_normalize prec emax n 0 false).

Definition digit_of (c : ascii) : option Z :=
  let n := N_of_ascii c in
  if ((48 <=? n) && (n <=? 57))%N then Some (Z.of_N n - 48) else None.

(** Reads the longest prefix of decimal digits, continuing the number [acc]:
    the number read, how many digits, and the rest of the text. *)
Fixpoint read_digits (s : string) (acc count : Z) : Z * Z * string :=
  match s with
  | String c s' =>
      match digit_of c with
      | Some d => read_digits s' (10 * acc + d) (count + 1)
      | None => (acc, count, s)
      end
  | EmptyString => (acc, count, s)
  end.

(** The binary64 number nearest to [m / 10^k] (ties to even), with the sign
    [neg]. *)
Definition round_decimal (neg : bool) (m k : Z) : float :=
  if m =? 0 then (if neg then neg_zero else PrimFloat.zero)
  else
    let d := 10 ^ k in
    let s := Z.log2 d + 64 in
    let n := m * 2 ^ s in
    let q := n / d in
    let r := n mod d in
    let loc := if r =? 0 then loc_Exact else loc_Inexact (2 * r ?= d) in
    SF2Prim (binary_round_aux prec emax neg q (- s) loc).

(** [float(text)] on the plain decimal texts: an optional sign, digits, and
    optionally a point and more digits, with at least one digit.  [None]
    stands for [ValueError].  Python's [float] accepts more (surrounding
    blanks, exponents, underscores, "inf", "nan"); the operations below take
    the conversion as a parameter, and this one serves to run them. *)
Definition of_decimal (text : string) : option float :=
  let '(neg, s1) :=
    match text with
    | String "-" r => (true, r)
    | String "+" r => (false, r)
    | _ => (false, text)
    end in
  let '(i, ni, s2) := read_digits s1 0 0 in
  let '(m, nf, s3) :=
    match s2 with
    | String "." r => read_digits r i 0
    | _ => (i, 0, s2)
    end in
  match s3 with
  | EmptyString => if 0 <? ni + nf then Some (round_decimal neg m nf) else None
  | _ => None
  end.

End PyFloat.

(** ** Exceptions *)

Inductive exn :=
| ValueError (text : string)   (* [float(text)] on a text that is no number *)
| KeyError (key : string).     (* a dictionary read at a missing key *)

(** The outcome of a statement sequence that may raise. *)
Inductive result (A : Type) :=
| Return (a : A)
| Raise (e : exn).
Arguments Return {A} a.
Arguments Raise {A} e.

#[global] Instance result_ret : MRet result := @Return.
#[global] Instance result_bind : MBind result := λ A B f r,
  match r with
  | Return a => f a
  | Raise e => Raise e
  end.

(** ** Global settings (tradeLogger.py, lines 36-41) *)

Record settings_t := {
  commission_per_contract : float;
  text_size : Z;
  dark_mode : bool;
  screenshot_folder : string
}.

Definition default_settings : settings_t := {|
  commission_per_contract := 0.35%float;
  text_size := 12;
  dark_mode := false;
  screenshot_folder := ""
|}.

(** [settings["commission_per_contract"] = v] *)
Definition set_commission (v : float) (s : settings_t) : settings_t := {|
  commission_per_contract := v;
  text_size := text_size s;
  dark_mode := dark_mode s;
  screenshot_folder := screenshot_folder s
|}.

(** ** The trades table (tradeLogger.py, lines 10-32) *)

(** What SQLite keeps of the values bound to a column declared [REAL]. *)
Module SqlValue.

(** What a [REAL] column holds after it received a text. *)
Inductive t :=
| Real (v : float)
| Text (s : string).

(** A float bound to a [REAL] column: NaN is kept as [NULL] ([None]), a
    number without fractional part is kept as an integer and read back as a
    float, which turns -0.0 into 0.0, and every other number is kept as it
    is. *)
Definition store_real (v : float) : option float :=
  if is_nan v then None
  else if is_zero v then Some 0%float
  else Some v.

(** A text bound to a [REAL] column: a text that reads as a number is kept
    as that number, any other text is kept as text.  [numeric] is SQLite's
    reading of a text as a number. *)
Definition store_text (numeric : string → option float) (text : string) : t :=
  match numeric text with
  | Some v =>
      match store_real v with
      | Some v' => Real v'
      | None => Text text
      end
  | None => Text text
  end.

End SqlValue.

(** A row of [trades] without its [id], as the table keeps it.  The columns
    [entry_price], [exit_price], [position_size], [pnl_net] and [commission]
    receive floats and hold a float or [NULL]; [account_size] and
    [stop_loss] are [REAL] columns that receive the text of a form entry and
    hold the number the text reads as, or the text itself; the other columns
    are [TEXT] columns and hold the text they are given. *)
Record trade := {
  date : string;
  time : string;
  instrument : string;
  session : string;
  account_size : SqlValue.t;
  setup_name : string;
  entry_price : option float;
  exit_price : option float;
  stop_loss : SqlValue.t;
  position_size : option float;
  direction : string;
  pnl_net : option float;
  commission : option float;
  context : string;
  bias : string;
  duration : string;
  mental_state_pre : string;
  mental_state_during : string;
  execution_quality : string;
  distractions : string
}.

(** The columns [date, instrument, pnl_net, commission] that the history view
    selects next to the [id]. *)
Definition summary : Type := string * string * option float * option float.

Definition summary_of (r : trade) : summary :=
  (date r, instrument r, pnl_net r, commission r).

(** The table: [id INTEGER PRIMARY KEY] maps each rowid to its row. *)
Module Sqlite.

(** Rows of the table are compared by rowid, largest first. *)
Definition id_desc : relation (Z * trade) := λ a b, b.1 ≤ a.1.

#[global] Instance id_desc_dec (a b : Z * trade) : Decision (id_desc a b).
Proof. unfold id_desc. apply _. Defined.

(** The largest rowid there is: 2^63 - 1. *)
Definition max_rowid : Z := 9223372036854775807.

(** The largest rowid in use, if the table has a row. *)
Definition largest_rowid (t : gmap Z trade) : option Z :=
  match (map_to_list t).*1 with
  | [] => None
  | k :: ks => Some (foldr Z.max k ks)
  end.

(** The first of the rowids 1, 2, 3, ... that is not in use; [fuel] bounds
    the search and the number of rows is fuel enough. *)
Fixpoint first_unused_from (t : gmap Z trade) (k : Z) (fuel : nat) : Z :=
  match fuel with
  | O => k
  | S fuel' =>
      match t !! k with
      | None => k
      | Some _ => first_unused_from t (k + 1) fuel'
      end
  end.

Definition first_unused (t : gmap Z trade) : Z :=
  first_unused_from t 1 (size t).

(** The rowid an [INSERT] without an id receives: 1 in an empty table, one
    more than the largest rowid in use while that is below [max_rowid], and
    otherwise an unused rowid between 1 and [max_rowid] that SQLite finds by
    drawing at random.  [candidate] is the draw of this [INSERT]; a draw
    that is out of range or in use is drawn again, for which the first
    unused rowid stands.  (An [INSERT] that finds no unused rowid fails as
    a full disk does; failures of the storage are not part of this
    development.) *)
Definition new_rowid (candidate : Z) (t : gmap Z trade) : Z :=
  match largest_rowid t with
  | None => 1
  | Some m =>
      if m <? max_rowid then m + 1
      else if (1 <=? candidate) && (candidate <=? max_rowid) then
        match t !! candidate with
        | None => candidate
        | Some _ => first_unused t
        end
      else first_unused t
  end.

(** [INSERT INTO trades (...) VALUES (...)] *)
Definition insert (candidate : Z) (r : trade) (t : gmap Z trade)
    : gmap Z trade :=
  <[new_rowid candidate t := r]> t.

(** [DELETE FROM trades WHERE id=?] *)
Definition delete_where_id (k : Z) (t : gmap Z trade) : gmap Z trade :=
  delete k t.

(** [FROM trades ORDER BY id DESC]: the rows, largest rowid first. *)
Definition rows_by_id_desc (t : gmap Z trade) : list (Z * trade) :=
  merge_sort id_desc (map_to_list t).

(** [SELECT id, date, instrument, pnl_net, commission FROM trades
     ORDER BY id DESC] *)
Definition select_order_by_id_desc (t : gmap Z trade) : list (Z * summary) :=
  prod_map id summary_of <$> rows_by_id_desc t.

(** Every rowid in use is below [bound]. *)
Definition rowids_below (bound : Z) (t : gmap Z trade) : Prop :=
  ∀ k, is_Some (t !! k) → k < bound.

End Sqlite.

(** ** The application state *)

(** The message boxes the application opens. *)
Inductive dialog :=
| InfoTradeSaved (pnl_net : float)
    (* showinfo("Saved", f"Trade saved. Net P&L: {pnl_net:.2f}") *)
| InfoSettingsUpdated
    (* showinfo("Saved", "Settings updated successfully.") *)
| ErrorInvalidCommission.
    (* showerror("Error", "Invalid commission value.") *)

(** The text of the result label of the Profit Calculator tab. *)
Inductive label :=
| LabelEmpty
| LabelPnl (pnl commission : float)
    (* f"Net P&L: {pnl:.2f} | Commission: {commission}" *)
| LabelError (e : exn).
    (* f"Error: {e}" *)

Record app := {
  settings : settings_t;            (* the global [settings] dictionary *)
  trades : gmap Z trade;            (* the [trades] table *)
  history_tree : list (Z * summary);(* the items of the history view *)
  dialogs : list dialog;            (* message boxes shown, latest first *)
  result_label : label
}.

Definition initial_app : app := {|
  settings := default_settings;
  trades := ∅;
  history_tree := [];
  dialogs := [];
  result_label := LabelEmpty
|}.

(** The entries of the Trade Tracker form, one per label of [fields]
    (tradeLogger.py, lines 75-80): the dictionary [data] of [save_trade]. *)
Record trade_form := {
  f_date : string;
  f_time : string;
  f_instrument : string;
  f_session : string;
  f_account_size : string;
  f_setup_name : string;
  f_entry_price : string;
  f_exit_price : string;
  f_stop_loss : string;
  f_position_size : string;
  f_direction : string;
  f_context : string;
  f_bias : string;
  f_duration : string;
  f_mental_state_pre : string;
  f_mental_state_during : string;
  f_execution_quality : string;
  f_distractions : string
}.

(** The form with another text in its Instrument entry. *)
Definition with_instrument (sym : string) (f : trade_form) : trade_form := {|
  f_date := f_date f; f_time := f_time f; f_instrument := sym;
  f_session := f_session f; f_account_size := f_account_size f;
  f_setup_name := f_setup_name f; f_entry_price := f_entry_price f;
  f_exit_price := f_exit_price f; f_stop_loss := f_stop_loss f;
  f_position_size := f_position_size f; f_direction := f_direction f;
  f_context := f_context f; f_bias := f_bias f; f_duration := f_duration f;
  f_mental_state_pre := f_mental_state_pre f;
  f_mental_state_during := f_mental_state_during f;
  f_execution_quality := f_execution_quality f;
  f_distractions := f_distractions f
|}.

(** The futures multiplier table of [calculate_profit] (line 212). *)
Definition multipliers : gmap string Z :=
  list_to_map [("NQ1", 20); ("ES1", 50); ("PL1", 50);
               ("CL1", 1000); ("GC1", 100); ("PA1", 100)].

(** [multipliers.get(instrument, 1)] *)
Definition multipliers_get (instrument : string) : Z :=
  default 1 (multipliers !! instrument).

(** ** The operations behind the buttons *)

Definition set_trades (t : gmap Z trade) (st : app) : app := {|
  settings := settings st; trades := t; history_tree := history_tree st;
  dialogs := dialogs st; result_label := result_label st
|}.

Definition set_history_tree (h : list (Z * summary)) (st : app) : app := {|
  settings := settings st; trades := trades st; history_tree := h;
  dialogs := dialogs st; result_label := result_label st
|}.

Definition set_settings (s : settings_t) (st : app) : app := {|
  settings := s; trades := trades st; history_tree := history_tree st;
  dialogs := dialogs st; result_label := result_label st
|}.

Definition set_result_label (l : label) (st : app) : app := {|
  settings := settings st; trades := trades st;
  history_tree := history_tree st; dialogs := dialogs st; result_label := l
|}.

Definition show (d : dialog) (st : app) : app := {|
  settings := settings st; trades := trades st;
  history_tree := history_tree st; dialogs := d :: dialogs st;
  result_label := result_label st
|}.

Section Operations.

(** The builtin [float] applied to a text: [None] when it raises
    [ValueError]. *)
Variable py_float : string → option float.

(** The method [str.upper]. *)
Variable py_upper : string → string.

(** SQLite's reading of a text as a number, where a text is stored in a
    [REAL] column: [None] when the text is no number to SQLite. *)
Variable sqlite_numeric : string → option float.

Definition to_float (text : string) : result float :=
  match py_float text with
  | Some v => Return v
  | None => Raise (ValueError text)
  end.

(** [entries[key].get()] on a dictionary of form entries. *)
Definition entry_get (entries : gmap string string) (key : string)
    : result string :=
  match entries !! key with
  | Some text => Return text
  | None => Raise (KeyError key)
  end.

(** The row the table holds after [save_trade] has bound its twenty values
    to the [INSERT] (lines 98-107). *)
Definition trade_row (data : trade_form) (entry exit size : float)
    (direction : string) (pnl_net commission : float) : trade := {|
  date := f_date data; time := f_time data; instrument := f_instrument data;
  session := f_session data;
  account_size := SqlValue.store_text sqlite_numeric (f_account_size data);
  setup_name := f_setup_name data;
  entry_price := SqlValue.store_real entry;
  exit_price := SqlValue.store_real exit;
  stop_loss := SqlValue.store_text sqlite_numeric (f_stop_loss data);
  position_size := SqlValue.store_real size; direction := direction;
  pnl_net := SqlValue.store_real pnl_net;
  commission := SqlValue.store_real commission;
  context := f_context data; bias := f_bias data; duration := f_duration data;
  mental_state_pre := f_mental_state_pre data;
  mental_state_during := f_mental_state_during data;
  execution_quality := f_execution_quality data;
  distractions := f_distractions data
|}.

(** [save_trade] (lines 89-109).  Nothing in it catches an exception: a
    [ValueError] of [float] leaves the function, and the state is as
    before.  [candidate] is the rowid SQLite draws, should this [INSERT]
    need a random one. *)
Definition save_trade (candidate : Z) (data : trade_form) (st : app)
    : result app :=
  entry ← to_float (f_entry_price data);
  exit ← to_float (f_exit_price data);
  size ← to_float (f_position_size data);
  let direction := f_direction data in
  let commission := commission_per_contract (settings st) in
  let pnl_net :=
    calculate_pnl entry exit size direction commission default_multiplier in
  let row := trade_row data entry exit size direction pnl_net commission in
  mret (show (InfoTradeSaved pnl_net)
          (set_trades (Sqlite.insert candidate row (trades st)) st)).

(** [load_history] (lines 123-128): the view is emptied and filled with the
    rows of a fresh query, in the order of the query. *)
Definition load_history (st : app) : app :=
  set_history_tree (Sqlite.select_order_by_id_desc (trades st)) st.

(** [delete_trade] (lines 130-137); [selected] is the selection of the
    history view. *)
Definition delete_trade (selected : list Z) (st : app) : app :=
  match selected with
  | [] => st
  | trade_id :: _ =>
      load_history (set_trades (Sqlite.delete_where_id trade_id (trades st)) st)
  end.

(** The body of the [try] of [calculate_profit] (lines 192-215). *)
Definition calculate_profit_try (choice : string)
    (calc_entries : gmap string string) (commission : float) : result float :=
  if String.eqb choice "Stocks" then
    size ← entry_get calc_entries "Position Size" ≫= to_float;
    entry ← entry_get calc_entries "Entry Price" ≫= to_float;
    exit ← entry_get calc_entries "Exit Price" ≫= to_float;
    mret (calculate_pnl entry exit size "long" commission default_multiplier)
  else if String.eqb choice "Forex" then
    direction ← entry_get calc_entries "Direction (Long/Short)";
    lots ← entry_get calc_entries "Trade Size (lots)" ≫= to_float;
    let size := (lots * 100000)%float in
    entry ← entry_get calc_entries "Entry Price" ≫= to_float;
    exit ← entry_get calc_entries "Exit Price" ≫= to_float;
    mret (calculate_pnl entry exit size direction commission 0.0001%float)
  else
    instrument_text ← entry_get calc_entries "Instrument";
    let instrument := py_upper instrument_text in
    direction ← entry_get calc_entries "Direction (Long/Short)";
    size ← entry_get calc_entries "Contracts" ≫= to_float;
    entry ← entry_get calc_entries "Entry Price" ≫= to_float;
    exit ← entry_get calc_entries "Exit Price" ≫= to_float;
    let multiplier := multipliers_get instrument in
    mret (calculate_pnl entry exit size direction commission
            (PyFloat.of_int multiplier)).

(** [calculate_profit] (lines 187-220): [choice] is the text of the
    instrument type box, [calc_entries] the entries of the calculator form. *)
Definition calculate_profit (choice : string)
    (calc_entries : gmap string string) (st : app) : app :=
  let commission := commission_per_contract (settings st) in
  match calculate_profit_try choice calc_entries commission with
  | Return pnl => set_result_label (LabelPnl pnl commission) st
  | Raise e => set_result_label (LabelError e) st
  end.

(** [save_settings] (lines 249-254); [text] is the text of the commission
    entry. *)
Definition save_settings (text : string) (st : app) : app :=
  match to_float text with
  | Return v =>
      show InfoSettingsUpdated (set_settings (set_commission v (settings st)) st)
  | Raise _ => show ErrorInvalidCommission st
  end.

(** What the user can do, and the state after it.  An exception that leaves
    a button's command ends that command only. *)
Inductive action :=
| SaveTrade (data : trade_form) (candidate : Z)
| Refresh
| DeleteSelected (selected : list Z)
| CalculateProfit (choice : string) (calc_entries : gmap string string)
| SaveSettings (text : string).

Definition step (a : action) (st : app) : app :=
  match a with
  | SaveTrade data candidate =>
      match save_trade candidate data st with
      | Return st' => st'
      | Raise _ => st
      end
  | Refresh => load_history st
  | DeleteSelected selected => delete_trade selected st
  | CalculateProfit choice calc_entries =>
      calculate_profit choice calc_entries st
  | SaveSettings text => save_settings text st
  end.

Definition run (acts : list action) (st : app) : app :=
  foldl (λ st a, step a st) st acts.

End Operations.

(** ** The ledger invariant *)

(** The row holds what SQLite keeps of an entry price, an exit price, a
    position size and a commission, and of the calculator's output for
    them, the row's direction and the default multiplier. *)
Definition stored_consistent (r : trade) : Prop :=
  ∃ entry exit size c,
    entry_price r = SqlValue.store_real entry
    ∧ exit_price r = SqlValue.store_real exit
    ∧ position_size r = SqlValue.store_real size
    ∧ commission r = SqlValue.store_real c
    ∧ pnl_net r
      = SqlValue.store_real
          (calculate_pnl entry exit size (direction r) c default_multiplier).

Definition ledger_consistent (t : gmap Z trade) : Prop :=
  map_Forall (λ _ r, stored_consistent r) t.

(** ** Sample inputs *)

(** A long trade of two ES1 contracts from 4000 to 4010. *)
Definition es1_form : trade_form := {|
  f_date := "2024-05-02"; f_time := "09:31"; f_instrument := "ES1";
  f_session := "NY"; f_account_size := "50000"; f_setup_name := "breakout";
  f_entry_price := "4000"; f_exit_price := "4010"; f_stop_loss := "3995";
  f_position_size := "2"; f_direction := "Long"; f_context := "";
  f_bias := ""; f_duration := ""; f_mental_state_pre := "";
  f_mental_state_during := ""; f_execution_quality := "";
  f_distractions := ""
|}.

(** The same trade typed into the Futures form of the calculator. *)
Definition es1_calc_entries : gmap string string :=
  list_to_map [("Instrument", "es1"); ("Direction (Long/Short)", "Long");
               ("Contracts", "2"); ("Entry Price", "4000");
               ("Exit Price", "4010")].

(** The Trade Tracker form with a text that is no number as entry price. *)
Definition bad_entry_form : trade_form := {|
  f_date := "2024-05-02"; f_time := "09:31"; f_instrument := "ES1";
  f_session := "NY"; f_account_size := "50000"; f_setup_name := "breakout";
  f_entry_price := "abc"; f_exit_price := "4010"; f_stop_loss := "3995";
  f_position_size := "2"; f_direction := "Long"; f_context := "";
  f_bias := ""; f_duration := ""; f_mental_state_pre := "";
  f_mental_state_during := ""; f_execution_quality := "";
  f_distractions := ""
|}.

Definition bad_entry_calc_entries : gmap string string :=
  list_to_map [("Position Size", "10"); ("Entry Price", "abc");
               ("Exit Price", "110")].

(** ** The calculator form (tradeLogger.py, lines 163-185) *)

(** The labels [update_calc_fields] chooses for the instrument type. *)
Definition calc_fields (choice : string) : list string :=
  if String.eqb choice "Stocks" then
    ["Position Size"; "Entry Price"; "Exit Price"]
  else if String.eqb choice "Forex" then
    ["Currency Pair"; "Direction (Long/Short)"; "Trade Size (lots)";
     "Entry Price"; "Exit Price"]
  else
    ["Instrument"; "Direction (Long/Short)"; "Contracts";
     "Entry Price"; "Exit Price"].

(** [update_calc_fields]: [calc_entries] starts empty and receives one new,
    empty entry per label, in the order of the labels. *)
Definition update_calc_fields (choice : string) : gmap string string :=
  foldl (λ entries field, <[field := ""]> entries) ∅ (calc_fields choice).

(** ** Start of the application (lines 7-33, 55-68 and 142) *)

(** [CREATE TABLE IF NOT EXISTS trades]: [db] is the table the database file
    holds, if it holds one. *)
Definition create_table_if_not_exists (db : option (gmap Z trade))
    : gmap Z trade :=
  match db with
  | Some t => t
  | None => ∅
  end.

(** The state when the window opens: the default settings, the table of the
    file, no message box, an empty result label, and the history view filled
    by the [load_history()] that ends [create_trade_history_tab]. *)
Definition startup (db : option (gmap Z trade)) : app :=
  load_history {|
    settings := default_settings;
    trades := create_table_if_not_exists db;
    history_tree := [];
    dialogs := [];
    result_label := LabelEmpty
  |}.

(** A Trade Tracker form whose exit price and position size are no
    numbers, and whose account size and stop loss are no numbers either. *)
Definition two_bad_numbers_form : trade_form := {|
  f_date := ""; f_time := ""; f_instrument := ""; f_session := "";
  f_account_size := "a lot"; f_setup_name := ""; f_entry_price := "1";
  f_exit_price := "x"; f_stop_loss := "none"; f_position_size := "y";
  f_direction := ""; f_context := ""; f_bias := ""; f_duration := "";
  f_mental_state_pre := ""; f_mental_state_during := "";
  f_execution_quality := ""; f_distractions := ""
|}.

(** The ES1 trade with a typing error in its direction. *)
Definition long_typo_form : trade_form := {|
  f_date := "2024-05-02"; f_time := "09:31"; f_instrument := "";
  f_session := "NY"; f_account_size := "50000"; f_setup_name := "breakout";
  f_entry_price := "4000"; f_exit_price := "4010"; f_stop_loss := "3995";
  f_position_size := "2"; f_direction := "Lnog"; f_context := "";
  f_bias := ""; f_duration := ""; f_mental_state_pre := "";
  f_mental_state_during := ""; f_execution_quality := "";
  f_distractions := ""
|}.

(** The ES1 trade of [es1_form] as an NQ1 trade. *)
Definition nq1_form : trade_form := with_instrument "NQ1" es1_form.

(** The texts of the samples are plain decimal texts, which SQLite reads as
    Python does; of their other texts SQLite makes no number either. *)
Definition sqlite_decimal : string → option float := PyFloat.of_decimal.

(** The builtins on the texts of the samples. *)
Definition sample_save_trade :=
  save_trade PyFloat.of_decimal sqlite_decimal.
Definition sample_step :=
  step PyFloat.of_decimal PyStr.upper_ascii sqlite_decimal.
Definition sample_run :=
  run PyFloat.of_decimal PyStr.upper_ascii sqlite_decimal.
Definition sample_calculate_profit :=
  calculate_profit PyFloat.of_decimal PyStr.upper_ascii.

Fixpoint zeros (n : nat) : string :=
  match n with
  | O => EmptyString
  | S n' => String "0" (zeros n')
  end.

(** The digit 1 followed by 309 zeros: a price beyond the largest float,
    which [float] reads as infinity. *)
Definition huge_price : string := String "1" (zeros 309).

(** The ES1 trade entered and left at [huge_price]. *)
Definition overflow_form : trade_form := {|
  f_date := "2024-05-02"; f_time := "09:31"; f_instrument := "ES1";
  f_session := "NY"; f_account_size := "50000"; f_setup_name := "breakout";
  f_entry_price := huge_price; f_exit_price := huge_price;
  f_stop_loss := "3995"; f_position_size := "2"; f_direction := "Long";
  f_context := ""; f_bias := ""; f_duration := "";
  f_mental_state_pre := ""; f_mental_state_during := "";
  f_execution_quality := ""; f_distractions := ""
|}.

(** The row of the ES1 trade under the default commission. *)
Definition es1_row : trade :=
  trade_row sqlite_decimal es1_form 4000 4010 2 "Long"
    (calculate_pnl 4000 4010 2 "Long" 0.35 default_multiplier) 0.35.

(** The row of the NQ1 trade under the default commission. *)
Definition nq1_row : trade :=
  trade_row sqlite_decimal nq1_form 4000 4010 2 "Long"
    (calculate_pnl 4000 4010 2 "Long" 0.35 default_multiplier) 0.35.

(** A state whose table holds one record, under the largest rowid. *)
Definition max_rowid_app : app :=
  set_trades {[Sqlite.max_rowid := es1_row]} initial_app.

(** ** The history view and the table *)

(** Every line of the view shows a row the table has, with its columns. *)
Definition view_valid (st : app) : Prop :=
  ∀ k s, (k, s) ∈ history_tree st →
    ∃ r, trades st !! k = Some r ∧ s = summary_of r.

(** The view is what a query would return now. *)
Definition view_in_sync (st : app) : Prop :=
  history_tree st = Sqlite.select_order_by_id_desc (trades st).

Definition is_save_trade (a : action) : bool :=
  match a with
  | SaveTrade _ _ => true
  | _ => false
  end.

Definition is_save_settings (a : action) : bool :=
  match a with
  | SaveSettings _ => true
  | _ => false
  end.

(** One lot of a currency pair from 1.1000 to 1.1050 in the Forex form. *)
Definition eurusd_calc_entries : gmap string string :=
  list_to_map [("Currency Pair", "EUR/USD");
               ("Direction (Long/Short)", "Long");
               ("Trade Size (lots)", "1"); ("Entry Price", "1.1000");
               ("Exit Price", "1.1050")].

(** The Stocks form with a direction entry it does not have on screen. *)
Definition stocks_calc_entries : gmap string string :=
  list_to_map [("Position Size", "10"); ("Entry Price", "100");
               ("Exit Price", "110");
               ("Direction (Long/Short)", "Short")].

(** ** Facts about binary64 arithmetic used below

    Rounding to nearest is symmetric around zero: negating an operand of a
    product negates the result, and exchanging the operands of a subtraction
    negates the result unless the difference is the zero [+0]. *)
Module FloatFacts.








End FloatFacts.

(** ** Case folding *)
Module PyStrFacts.

Lemma lower_char_l (c : ascii) :
  PyStr.lower_char c = "l"%char ↔ c = "l"%char ∨ c = "L"%char.
Proof.
  split.
  - destruct c as [[] [] [] [] [] [] [] []]; vm_compute; intros H;
      first [discriminate H | by left | by right].
  - intros [-> | ->]; reflexivity.
Qed.

Lemma lower_char_o (c : ascii) :
  PyStr.lower_char c = "o"%char ↔ c = "o"%char ∨ c = "O"%char.
Proof.
  split.
  - destruct c as [[] [] [] [] [] [] [] []]; vm_compute; intros H;
      first [discriminate H | by left | by right].
  - intros [-> | ->]; reflexivity.
Qed.

Lemma lower_char_n (c : ascii) :
  PyStr.lower_char c = "n"%char ↔ c = "n"%char ∨ c = "N"%char.
Proof.
  split.
  - destruct c as [[] [] [] [] [] [] [] []]; vm_compute; intros H;
      first [discriminate H | by left | by right].
  - intros [-> | ->]; reflexivity.
Qed.

Lemma lower_char_g (c : ascii) :
  PyStr.lower_char c = "g"%char ↔ c = "g"%char ∨ c = "G"%char.
Proof.
  split.
  - destruct c as [[] [] [] [] [] [] [] []]; vm_compute; intros H;
      first [discriminate H | by left | by right].
  - intros [-> | ->]; reflexivity.
Qed.

(** The directions that take the Long branch are the sixteen spellings of
    "long" in upper and lower case letters. *)
Lemma lower_long (d : string) :
  PyStr.lower d = "long" ↔
  ∃ c1 c2 c3 c4,
    d = String c1 (String c2 (String c3 (String c4 EmptyString)))
    ∧ (c1 = "l" ∨ c1 = "L")%char ∧ (c2 = "o" ∨ c2 = "O")%char
    ∧ (c3 = "n" ∨ c3 = "N")%char ∧ (c4 = "g" ∨ c4 = "G")%char.
Proof.
  split.
  - destruct d as [|c1 [|c2 [|c3 [|c4 [|c5 d]]]]]; simpl; intros H;
      try discriminate H.
    injection H as H1 H2 H3 H4.
    exists c1, c2, c3, c4. split; [done|].
    by rewrite <- lower_char_l, <- lower_char_o, <- lower_char_n,
      <- lower_char_g.
  - intros (c1 & c2 & c3 & c4 & -> & H1 & H2 & H3 & H4). simpl.
    apply lower_char_l in H1. apply lower_char_o in H2.
    apply lower_char_n in H3. apply lower_char_g in H4. congruence.
Qed.

End PyStrFacts.

(** ** The table: fresh rowids and ordered retrieval *)
Module SqliteFacts.
Import Sqlite.

#[local] Instance id_desc_total : Total id_desc.
Proof. intros [a ?] [b ?]. unfold id_desc. simpl. lia. Qed.

#[local] Instance id_desc_trans : Transitive id_desc.
Proof. intros [a ?] [b ?] [c ?]. unfold id_desc. simpl. lia. Qed.

Lemma rows_perm (t : gmap Z trade) : rows_by_id_desc t ≡ₚ map_to_list t.
Proof. apply merge_sort_Permutation. Qed.

Lemma rows_sorted (t : gmap Z trade) :
  StronglySorted id_desc (rows_by_id_desc t).
Proof. apply StronglySorted_merge_sort; apply _. Qed.

Lemma elem_of_rows (t : gmap Z trade) (k : Z) (r : trade) :
  (k, r) ∈ rows_by_id_desc t ↔ t !! k = Some r.
Proof. rewrite rows_perm. apply elem_of_map_to_list. Qed.

(** The ordered retrieval is the only way to list the table largest rowid
    first: the rowid is a key. *)
Lemma rows_unique (t : gmap Z trade) (l : list (Z * trade)) :
  StronglySorted id_desc l → l ≡ₚ map_to_list t → l = rows_by_id_desc t.
Proof.
  intros Hs Hp.
  apply (StronglySorted_unique_strong id_desc); [|done|apply rows_sorted|].
  - intros [k1 r1] [k2 r2] H1 H2 H12 H21. unfold id_desc in *. simpl in *.
    assert (k1 = k2) as -> by lia.
    rewrite Hp in H1. apply elem_of_map_to_list in H1.
    apply elem_of_rows in H2. congruence.
  - by rewrite rows_perm.
Qed.

Lemma foldr_max_ge (k0 : Z) (ks : list Z) (x : Z) :
  x ∈ k0 :: ks → x ≤ foldr Z.max k0 ks.
Proof.
  induction ks as [|k ks IH]; simpl.
  - intros ->%list_elem_of_singleton. lia.
  - rewrite !elem_of_cons. intros [->|[->|H]].
    + assert (k0 ≤ foldr Z.max k0 ks) by (apply IH; left). lia.
    + lia.
    + assert (x ≤ foldr Z.max k0 ks) by (apply IH; by right). lia.
Qed.

Lemma foldr_max_elem (k0 : Z) (ks : list Z) : foldr Z.max k0 ks ∈ k0 :: ks.
Proof.
  induction ks as [|k ks IH]; simpl; [by left|].
  destruct (Z.max_spec k (foldr Z.max k0 ks)) as [[_ ->]|[_ ->]].
  - apply elem_of_cons in IH as [->|IH]; [by left|by do 2 right].
  - right. by left.
Qed.

Lemma largest_rowid_None (t : gmap Z trade) :
  largest_rowid t = None → t = ∅.
Proof.
  unfold largest_rowid. destruct ((map_to_list t).*1) eqn:E; [|done].
  intros _. apply fmap_nil_inv in E. by apply map_to_list_empty_iff.
Qed.

(** The largest rowid is in use and no rowid in use is above it. *)
Lemma largest_rowid_Some (t : gmap Z trade) (m : Z) :
  largest_rowid t = Some m →
  is_Some (t !! m) ∧ ∀ k, is_Some (t !! k) → k ≤ m.
Proof.
  unfold largest_rowid. destruct ((map_to_list t).*1) as [|k0 ks] eqn:E;
    [done|]. intros [= <-]. split.
  - pose proof (foldr_max_elem k0 ks) as Hin. rewrite <- E in Hin.
    apply list_elem_of_fmap in Hin as ([k r] & Hk & Hin). simpl in Hk.
    apply elem_of_map_to_list in Hin. rewrite Hk. by exists r.
  - intros k [r Hr]. apply elem_of_map_to_list in Hr.
    apply foldr_max_ge. rewrite <- E. apply list_elem_of_fmap.
    by exists (k, r).
Qed.

Lemma first_unused_from_spec (t : gmap Z trade) (fuel : nat) (k : Z) :
  let r := first_unused_from t k fuel in
  k ≤ r ≤ k + Z.of_nat fuel
  ∧ (∀ j, k ≤ j < r → is_Some (t !! j))
  ∧ (r < k + Z.of_nat fuel → t !! r = None).
Proof.
  revert k. induction fuel as [|fuel IH]; intros k; simpl.
  - split; [lia|]. split; intros; lia.
  - destruct (t !! k) as [x|] eqn:E.
    + destruct (IH (k + 1)) as (Hb & Hused & Hfree).
      split; [lia|]. split.
      * intros j Hj. destruct (decide (j = k)) as [->|Hne]; [by exists x|].
        apply Hused. lia.
      * intros Hlt. apply Hfree. lia.
    + split; [lia|]. split; [intros; lia|done].
Qed.

Lemma first_unused_bounds (t : gmap Z trade) :
  1 ≤ first_unused t ≤ Z.of_nat (size t) + 1.
Proof.
  destruct (first_unused_from_spec t (size t) 1) as (Hb & _).
  unfold first_unused. lia.
Qed.

(** The search finds an unused rowid: were the rowids 1 to [size t] all in
    use, they would be the rowids of the table, and the next one free. *)
Lemma first_unused_fresh (t : gmap Z trade) : t !! first_unused t = None.
Proof.
  destruct (first_unused_from_spec t (size t) 1) as (Hb & Hused & Hfree).
  fold (first_unused t) in *.
  destruct (decide (first_unused t < 1 + Z.of_nat (size t))) as [Hlt|Hge];
    [by apply Hfree|].
  assert (first_unused t = Z.of_nat (size t) + 1) as Heq by lia.
  apply (not_elem_of_dom (D := gset Z)).
  assert (list_to_set (seqZ 1 (Z.of_nat (size t))) = dom t) as <-.
  { apply set_subseteq_size_eq.
    - intros j Hj. apply elem_of_list_to_set, elem_of_seqZ in Hj.
      apply elem_of_dom, Hused. lia.
    - rewrite size_dom, size_list_to_set by apply NoDup_seqZ.
      rewrite length_seqZ. lia. }
  rewrite elem_of_list_to_set, elem_of_seqZ. lia.
Qed.

(** The rowid of an insertion is not in use. *)
Lemma new_rowid_fresh (candidate : Z) (t : gmap Z trade) :
  t !! new_rowid candidate t = None.
Proof.
  unfold new_rowid. destruct (largest_rowid t) as [m|] eqn:E.
  - apply largest_rowid_Some in E as [_ Hmax].
    destruct (Z.ltb_spec m max_rowid).
    + destruct (t !! (m + 1)) as [r|] eqn:Er; [|done].
      assert (m + 1 ≤ m); [|lia]. apply Hmax. by exists r.
    + destruct ((1 <=? candidate) && (candidate <=? max_rowid));
        [|apply first_unused_fresh].
      destruct (t !! candidate) eqn:Ec; [apply first_unused_fresh|done].
  - apply largest_rowid_None in E. subst t. apply lookup_empty.
Qed.

(** While the rowids in use are below [max_rowid], the new rowid is above
    them all, whatever the draw. *)
Lemma new_rowid_above (candidate : Z) (t : gmap Z trade) (k : Z) :
  rowids_below max_rowid t → is_Some (t !! k) → k < new_rowid candidate t.
Proof.
  intros Hbelow Hk. unfold new_rowid.
  destruct (largest_rowid t) as [m|] eqn:E.
  - apply largest_rowid_Some in E as [Hm Hmax].
    apply Hbelow in Hm. apply Hmax in Hk.
    destruct (Z.ltb_spec m max_rowid); lia.
  - apply largest_rowid_None in E. subst t.
    rewrite lookup_empty in Hk. by apply is_Some_None in Hk.
Qed.


(** A row inserted above all rowids in use comes first. *)
Lemma rows_insert_first (candidate : Z) (r : trade) (t : gmap Z trade) :
  (∀ k, is_Some (t !! k) → k < new_rowid candidate t) →
  rows_by_id_desc (insert candidate r t)
  = (new_rowid candidate t, r) :: rows_by_id_desc t.
Proof.
  intros Habove. symmetry. apply rows_unique.
  - apply StronglySorted_cons. split; [|apply rows_sorted].
    apply Forall_forall. intros [k r'] Hk. apply elem_of_rows in Hk.
    unfold id_desc. simpl.
    assert (k < new_rowid candidate t) by (apply Habove; by exists r').
    lia.
  - unfold insert. rewrite map_to_list_insert by apply new_rowid_fresh.
    by rewrite rows_perm.
Qed.

Lemma StronglySorted_filter {A} (R : relation A) (P : A → Prop)
    `{∀ x, Decision (P x)} (l : list A) :
  StronglySorted R l → StronglySorted R (filter P l).
Proof.
  induction 1 as [|x l Hl IH Hx]; [constructor|].
  rewrite filter_cons. case_decide; [|done].
  constructor; [done|].
  apply Forall_forall. intros y [_ Hy]%list_elem_of_filter.
  rewrite Forall_forall in Hx. by apply Hx.
Qed.

Lemma filter_all {A} (P : A → Prop) `{∀ x, Decision (P x)} (l : list A) :
  Forall P l → filter P l = l.
Proof.
  induction 1 as [|x l Hx Hl IH]; [done|].
  by rewrite filter_cons_True, IH.
Qed.

(** After a deletion the other rows are listed as before. *)
Lemma rows_delete (k : Z) (t : gmap Z trade) :
  rows_by_id_desc (delete_where_id k t)
  = filter (λ x, x.1 ≠ k) (rows_by_id_desc t).
Proof.
  symmetry. apply rows_unique.
  - apply StronglySorted_filter, rows_sorted.
  - rewrite rows_perm. unfold delete_where_id.
    destruct (t !! k) as [r|] eqn:E.
    + rewrite <- (map_to_list_delete t k r E).
      rewrite filter_cons_False by (simpl; tauto).
      apply reflexive_eq, filter_all, Forall_forall.
      intros [k' r'] Hk'%elem_of_map_to_list. simpl.
      intros ->. by rewrite lookup_delete_eq in Hk'.
    + rewrite delete_id by done.
      apply reflexive_eq, filter_all, Forall_forall.
      intros [k' r'] Hk'%elem_of_map_to_list. simpl. congruence.
Qed.

(** Distinct keys make the order strict. *)
Lemma rows_strictly_desc (t : gmap Z trade) :
  StronglySorted (λ a b : Z * trade, b.1 < a.1) (rows_by_id_desc t).
Proof.
  assert (NoDup (rows_by_id_desc t).*1) as Hnd.
  { rewrite rows_perm. apply NoDup_fst_map_to_list. }
  pose proof (rows_sorted t) as Hs.
  induction Hs as [|[k r] l Hl IH Hx]; [constructor|].
  rewrite fmap_cons in Hnd. apply NoDup_cons in Hnd as [Hk Hnd].
  constructor; [by apply IH|].
  apply Forall_forall. intros [k' r'] Hin.
  rewrite Forall_forall in Hx. specialize (Hx _ Hin).
  unfold id_desc in Hx. simpl in *.
  assert (k' ≠ k); [|lia].
  intros ->. apply Hk, list_elem_of_fmap. by exists (k, r').
Qed.

Lemma filter_fmap {A B} (f : A → B) (P : B → Prop) `{∀ y, Decision (P y)}
    (l : list A) :
  filter P (f <$> l) = f <$> filter (λ x, P (f x)) l.
Proof.
  induction l as [|x l IH]; [done|].
  rewrite fmap_cons, !filter_cons, IH. by case_decide.
Qed.

Lemma select_insert_first (candidate : Z) (r : trade) (t : gmap Z trade) :
  (∀ k, is_Some (t !! k) → k < new_rowid candidate t) →
  select_order_by_id_desc (insert candidate r t)
  = (new_rowid candidate t, summary_of r) :: select_order_by_id_desc t.
Proof.
  intros Habove. unfold select_order_by_id_desc.
  by rewrite rows_insert_first.
Qed.

Lemma select_delete (k : Z) (t : gmap Z trade) :
  select_order_by_id_desc (delete_where_id k t)
  = filter (λ x, x.1 ≠ k) (select_order_by_id_desc t).
Proof.
  unfold select_order_by_id_desc. rewrite rows_delete, filter_fmap.
  f_equal.
Qed.

(** After an insertion the rows that were there are listed as before. *)
Lemma select_insert_others (candidate : Z) (r : trade) (t : gmap Z trade) :
  filter (λ x, x.1 ≠ new_rowid candidate t)
    (select_order_by_id_desc (insert candidate r t))
  = select_order_by_id_desc t.
Proof.
  rewrite <- select_delete. unfold delete_where_id, insert.
  by rewrite delete_insert_id by apply new_rowid_fresh.
Qed.

Lemma select_strictly_desc (t : gmap Z trade) :
  StronglySorted (λ a b : Z * summary, b.1 < a.1)
    (select_order_by_id_desc t).
Proof.
  unfold select_order_by_id_desc.
  apply (StronglySorted_fmap _ (λ a b : Z * trade, b.1 < a.1));
    [|apply rows_strictly_desc].
  by intros [] [].
Qed.

Lemma elem_of_select (t : gmap Z trade) (k : Z) (s : summary) :
  (k, s) ∈ select_order_by_id_desc t ↔
  ∃ r, t !! k = Some r ∧ s = summary_of r.
Proof.
  unfold select_order_by_id_desc. rewrite list_elem_of_fmap. split.
  - intros ([k' r] & [= -> ->] & Hin). exists r.
    by apply elem_of_rows in Hin.
  - intros (r & Hr & ->). exists (k, r). by rewrite elem_of_rows.
Qed.

End SqliteFacts.

(** ** The calculator *)

Lemma calculate_pnl_long (entry exit size : float) (d : string)
    (c m : float) :
  PyStr.lower d = "long" →
  calculate_pnl entry exit size d c m
  = ((exit - entry) * size * m - c * size)%float.
Proof.
  intros H. unfold calculate_pnl. rewrite H. reflexivity.
Qed.

Lemma calculate_pnl_not_long (entry exit size : float) (d : string)
    (c m : float) :
  PyStr.lower d ≠ "long" →
  calculate_pnl entry exit size d c m
  = ((entry - exit) * size * m - c * size)%float.
Proof.
  intros H. unfold calculate_pnl.
  destruct (String.eqb_spec (PyStr.lower d) "long"); [contradiction | done].
Qed.

(** C1: for all floats entry, exit, size, commission, multiplier and every
    direction text, [calculate_pnl] returns
    [(exit - entry) * size * multiplier - commission * size] when the
    direction is Long and
    [(entry - exit) * size * multiplier - commission * size] when it is
    Short, in whatever letter case the direction is written. *)
Theorem C1_calculate_pnl_formula (entry exit size c m : float) (d : string) :
  (PyStr.lower d = "long" →
   calculate_pnl entry exit size d c m
   = ((exit - entry) * size * m - c * size)%float)
  ∧ (PyStr.lower d = "short" →
     calculate_pnl entry exit size d c m
     = ((entry - exit) * size * m - c * size)%float).
Proof.
  split; intros H.
  - by apply calculate_pnl_long.
  - apply calculate_pnl_not_long. rewrite H. discriminate.
Qed.

Lemma C1_calculate_pnl_formula_witness :
  (PyStr.lower "Long" = "long" ∧ PyStr.lower "Short" = "short")
  ∧ calculate_pnl 100 110 10 "Long" 0.35 1
    = ((110 - 100) * 10 * 1 - 0.35 * 10)%float
  ∧ calculate_pnl 100 90 10 "Short" 0.35 1
    = ((100 - 90) * 10 * 1 - 0.35 * 10)%float.
Proof.
  split; [split; reflexivity|]. split.
  - apply (proj1 (C1_calculate_pnl_formula 100 110 10 0.35 1 "Long")).
    reflexivity.
  - apply (proj2 (C1_calculate_pnl_formula 100 90 10 0.35 1 "Short")).
    reflexivity.
Defined.

Lemma calculate_pnl_lower (entry exit size : float) (d d' : string)
    (c m : float) :
  PyStr.lower d = PyStr.lower d' →
  calculate_pnl entry exit size d c m = calculate_pnl entry exit size d' c m.
Proof. intros H. unfold calculate_pnl. by rewrite H. Qed.

(** C3: the direction is compared without regard to letter case (two
    directions with the same lower-case form give the same result), and
    every direction whose lower-case form is not "long" gives exactly the
    result of "Short", for all numeric arguments. *)
Theorem C3_direction_fallback (d : string) (entry exit size c m : float) :
  (∀ d', PyStr.lower d = PyStr.lower d' →
     calculate_pnl entry exit size d c m
     = calculate_pnl entry exit size d' c m)
  ∧ (PyStr.lower d = "long" →
     calculate_pnl entry exit size d c m
     = calculate_pnl entry exit size "Long" c m)
  ∧ (PyStr.lower d ≠ "long" →
     calculate_pnl entry exit size d c m
     = calculate_pnl entry exit size "Short" c m).
Proof.
  split; [|split].
  - intros d'. apply calculate_pnl_lower.
  - intros H. rewrite !calculate_pnl_long; done.
  - intros H. rewrite !calculate_pnl_not_long; done.
Qed.

Lemma C3_direction_fallback_witness :
  (PyStr.lower "LONG" = "long" ∧ PyStr.lower "sideways" ≠ "long")
  ∧ calculate_pnl 100 110 10 "LONG" 0.35 1
    = calculate_pnl 100 110 10 "Long" 0.35 1
  ∧ calculate_pnl 100 110 10 "sideways" 0.35 1
    = calculate_pnl 100 110 10 "Short" 0.35 1
  ∧ calculate_pnl 100 110 10 "sHoRt" 0.35 1
    = calculate_pnl 100 110 10 "Short" 0.35 1.
Proof.
  split; [split; [reflexivity | discriminate]|]. split; [|split].
  - apply (proj1 (proj2 (C3_direction_fallback "LONG" 100 110 10 0.35 1))).
    reflexivity.
  - apply (proj2 (proj2 (C3_direction_fallback "sideways" 100 110 10 0.35 1))).
    discriminate.
  - apply (proj1 (C3_direction_fallback "sHoRt" 100 110 10 0.35 1)).
    reflexivity.
Defined.



(** C8: [calculate_pnl(100, 110, 10, "Long", 0.35)] and
    [calculate_pnl(100, 90, 10, "Short", 0.35)], with the default multiplier,
    are both exactly 96.5. *)
Theorem C8_worked_examples :
  calculate_pnl 100 110 10 "Long" 0.35 default_multiplier = 96.5%float
  ∧ calculate_pnl 100 90 10 "Short" 0.35 default_multiplier = 96.5%float.
Proof. split; vm_compute; reflexivity. Qed.

(** ** What the table keeps of a float *)

Lemma store_real_nan (v : float) :
  is_nan v = true → SqlValue.store_real v = None.
Proof. intros H. unfold SqlValue.store_real. by rewrite H. Qed.

Lemma store_real_zero (v : float) :
  is_nan v = false → is_zero v = true →
  SqlValue.store_real v = Some 0%float.
Proof. intros H1 H2. unfold SqlValue.store_real. by rewrite H1, H2. Qed.

Lemma store_real_other (v : float) :
  is_nan v = false → is_zero v = false → SqlValue.store_real v = Some v.
Proof. intros H1 H2. unfold SqlValue.store_real. by rewrite H1, H2. Qed.

(** ** The operations *)

(** What a successful [save_trade] did. *)
Lemma save_trade_Return (py_float sqlite_numeric : string → option float)
    (candidate : Z) (data : trade_form) (st st' : app) :
  save_trade py_float sqlite_numeric candidate data st = Return st' ↔
  ∃ entry exit size,
    py_float (f_entry_price data) = Some entry
    ∧ py_float (f_exit_price data) = Some exit
    ∧ py_float (f_position_size data) = Some size
    ∧ let c := commission_per_contract (settings st) in
      let pnl :=
        calculate_pnl entry exit size (f_direction data) c
          default_multiplier in
      st' = show (InfoTradeSaved pnl)
              (set_trades
                 (Sqlite.insert candidate
                    (trade_row sqlite_numeric data entry exit size
                       (f_direction data) pnl c)
                    (trades st)) st).
Proof.
  unfold save_trade, to_float.
  destruct (py_float (f_entry_price data)) as [entry|];
    destruct (py_float (f_exit_price data)) as [exit|];
    destruct (py_float (f_position_size data)) as [size|]; simpl;
    try (split; [discriminate | by intros (? & ? & ? & ? & ? & ? & _)]).
  split.
  - intros [= <-]. by exists entry, exit, size.
  - intros (? & ? & ? & [= <-] & [= <-] & [= <-] & ->). done.
Qed.

(** [save_trade] raises exactly when one of the three numbers is missing. *)
Lemma save_trade_Raise (py_float sqlite_numeric : string → option float)
    (candidate : Z) (data : trade_form) (st : app) :
  (py_float (f_entry_price data) = None
   ∨ py_float (f_exit_price data) = None
   ∨ py_float (f_position_size data) = None) ↔
  ∃ text,
    save_trade py_float sqlite_numeric candidate data st
    = Raise (ValueError text).
Proof.
  unfold save_trade, to_float.
  destruct (py_float (f_entry_price data)) as [entry|];
    destruct (py_float (f_exit_price data)) as [exit|];
    destruct (py_float (f_position_size data)) as [size|]; simpl;
    (split; [intros [H|[H|H]]; first [discriminate H | by eexists]
            | intros [text H]; first [discriminate H | tauto]]).
Qed.

(** Only [save_trade] and [delete_trade] write the table. *)
Lemma trades_save_settings (py_float : string → option float)
    (text : string) (st : app) :
  trades (save_settings py_float text st) = trades st.
Proof. unfold save_settings. by destruct (to_float py_float text). Qed.

Lemma trades_calculate_profit (py_float : string → option float)
    (py_upper : string → string) (choice : string)
    (calc_entries : gmap string string) (st : app) :
  trades (calculate_profit py_float py_upper choice calc_entries st)
  = trades st.
Proof.
  unfold calculate_profit. by destruct (calculate_profit_try _ _ _ _ _).
Qed.

Lemma trades_delete_trade (selected : list Z) (st : app) :
  trades (delete_trade selected st)
  = match selected with
    | [] => trades st
    | trade_id :: _ => delete trade_id (trades st)
    end.
Proof. by destruct selected. Qed.

(** One action leaves every row of the table as it is, or deletes it. *)
Lemma step_keeps_rows (py_float : string → option float)
    (py_upper : string → string) (sqlite_numeric : string → option float)
    (a : action) (st : app) (k : Z) (r : trade) :
  trades st !! k = Some r →
  trades (step py_float py_upper sqlite_numeric a st) !! k = Some r
  ∨ trades (step py_float py_upper sqlite_numeric a st) !! k = None.
Proof.
  intros Hk.
  destruct a as [data candidate| |selected|choice entries|text]; simpl.
  - destruct (save_trade py_float sqlite_numeric candidate data st)
      as [st'|e] eqn:E; [|by left].
    apply save_trade_Return in E as (entry & exit & size & _ & _ & _ & ->).
    left. simpl. unfold Sqlite.insert. rewrite lookup_insert_ne; [done|].
    intros Heq. rewrite <- Heq, SqliteFacts.new_rowid_fresh in Hk. done.
  - by left.
  - rewrite trades_delete_trade. destruct selected as [|trade_id ?];
      [by left|].
    destruct (decide (trade_id = k)) as [->|Hne].
    + right. apply lookup_delete_eq.
    + left. by rewrite lookup_delete_ne.
  - left. by rewrite trades_calculate_profit.
  - left. by rewrite trades_save_settings.
Qed.

Lemma trade_row_consistent (sqlite_numeric : string → option float)
    (data : trade_form) (entry exit size c : float) (d : string) :
  stored_consistent
    (trade_row sqlite_numeric data entry exit size d
       (calculate_pnl entry exit size d c default_multiplier) c).
Proof. by exists entry, exit, size, c. Qed.

(** The ledger invariant is kept by every action. *)
Lemma step_consistent (py_float : string → option float)
    (py_upper : string → string) (sqlite_numeric : string → option float)
    (a : action) (st : app) :
  ledger_consistent (trades st) →
  ledger_consistent (trades (step py_float py_upper sqlite_numeric a st)).
Proof.
  intros Hst.
  destruct a as [data candidate| |selected|choice entries|text]; simpl.
  - destruct (save_trade py_float sqlite_numeric candidate data st)
      as [st'|e] eqn:E; [|done].
    apply save_trade_Return in E as (entry & exit & size & _ & _ & _ & ->).
    simpl. apply map_Forall_insert_2; [|done]. apply trade_row_consistent.
  - done.
  - rewrite trades_delete_trade. destruct selected; [done|].
    by apply map_Forall_delete.
  - by rewrite trades_calculate_profit.
  - by rewrite trades_save_settings.
Qed.

Lemma run_consistent (py_float : string → option float)
    (py_upper : string → string) (sqlite_numeric : string → option float)
    (acts : list action) (st : app) :
  ledger_consistent (trades st) →
  ledger_consistent (trades (run py_float py_upper sqlite_numeric acts st)).
Proof.
  revert st. induction acts as [|a acts IH]; intros st Hst; [done|].
  simpl. apply IH. by apply step_consistent.
Qed.

(** C2, as stated, fails where SQLite does not keep the float it is given.
    With the entry and exit price [huge_price], which [float] reads as
    infinity, the calculator's output for the prices, size, direction and
    commission of the record is NaN, and the P&L the table holds is NULL. *)
Lemma C2_nan_stored_as_null :
  PyFloat.of_decimal huge_price = Some infinity
  ∧ is_nan (calculate_pnl infinity infinity 2 "Long" 0.35 default_multiplier)
    = true
  ∧ ∃ st' row,
      sample_save_trade 0 overflow_form initial_app = Return st'
      ∧ trades st' !! 1 = Some row
      ∧ pnl_net row
        ≠ Some (calculate_pnl infinity infinity 2 "Long" 0.35
                  default_multiplier).
Proof.
  split; [vm_compute; reflexivity|]. split; [vm_compute; reflexivity|].
  eexists _, _. split; [vm_compute; reflexivity|].
  split; [vm_compute; reflexivity|].
  vm_compute. discriminate.
Qed.

(** C2, amended: a record created by [save_trade] holds the global
    commission rate at the moment of the call and the calculator's output
    for the record's entry price, exit price, position size and direction
    and that commission, each as SQLite keeps a float: NaN as NULL, a zero
    as 0.0, and every other number unchanged.  Afterwards no action
    recomputes it: each action leaves a stored row as it is or deletes it,
    saving the settings does not touch the table, and in every state reached
    every row holds what SQLite keeps of the calculator's output for the
    numbers it was saved with. *)
Theorem C2_commission_snapshot
    (py_float : string → option float) (py_upper : string → string)
    (sqlite_numeric : string → option float) (candidate : Z)
    (data : trade_form) (st st' : app) :
  save_trade py_float sqlite_numeric candidate data st = Return st' →
  let id := Sqlite.new_rowid candidate (trades st) in
  let c := commission_per_contract (settings st) in
  (∃ entry exit size row,
     py_float (f_entry_price data) = Some entry
     ∧ py_float (f_exit_price data) = Some exit
     ∧ py_float (f_position_size data) = Some size
     ∧ trades st !! id = None
     ∧ trades st' = <[id := row]> (trades st)
     ∧ commission row = SqlValue.store_real c
     ∧ entry_price row = SqlValue.store_real entry
     ∧ exit_price row = SqlValue.store_real exit
     ∧ position_size row = SqlValue.store_real size
     ∧ direction row = f_direction data
     ∧ pnl_net row
       = SqlValue.store_real
           (calculate_pnl entry exit size (f_direction data) c
              default_multiplier))
  ∧ (∀ v,
       (is_nan v = true → SqlValue.store_real v = None)
       ∧ (is_nan v = false → is_zero v = true →
          SqlValue.store_real v = Some 0%float)
       ∧ (is_nan v = false → is_zero v = false →
          SqlValue.store_real v = Some v))
  ∧ (∀ text, trades (save_settings py_float text st') = trades st')
  ∧ (∀ a st1 k r,
       trades st1 !! k = Some r →
       trades (step py_float py_upper sqlite_numeric a st1) !! k = Some r
       ∨ trades (step py_float py_upper sqlite_numeric a st1) !! k = None)
  ∧ (∀ acts,
       ledger_consistent (trades st) →
       ledger_consistent
         (trades (run py_float py_upper sqlite_numeric acts st'))).
Proof.
  intros Hsave id c. pose proof Hsave as Hsave'.
  apply save_trade_Return in Hsave as (entry & exit & size & He & Hx & Hs & ->).
  split; [|split; [|split; [|split]]].
  - exists entry, exit, size. eexists.
    do 3 (split; [done|]). split; [apply SqliteFacts.new_rowid_fresh|].
    split; [reflexivity|]. simpl. done.
  - intros v. split; [apply store_real_nan|].
    split; [apply store_real_zero | apply store_real_other].
  - intros text. apply trades_save_settings.
  - intros a st1 k r. apply step_keeps_rows.
  - intros acts Hst. apply run_consistent.
    pose proof (step_consistent py_float py_upper sqlite_numeric
                  (SaveTrade data candidate) st Hst) as H.
    simpl in H. rewrite Hsave' in H. exact H.
Qed.

Lemma C2_commission_snapshot_witness :
  ∃ st',
    sample_save_trade 0 es1_form initial_app = Return st'
    ∧ ∃ row,
        trades st' = <[1 := row]> ∅
        ∧ commission row = Some 0.35%float
        ∧ pnl_net row = Some (calculate_pnl 4000 4010 2 "Long" 0.35 1).
Proof.
  exists (sample_step (SaveTrade es1_form 0) initial_app).
  assert (sample_save_trade 0 es1_form initial_app
          = Return (sample_step (SaveTrade es1_form 0) initial_app))
    as H by (vm_compute; reflexivity).
  split; [exact H|].
  destruct (C2_commission_snapshot PyFloat.of_decimal PyStr.upper_ascii
              sqlite_decimal 0 es1_form initial_app _ H)
    as [(entry & exit & size & row & He & Hx & Hs & _ & Ht & Hc & _ & _ & _
         & Hd & Hp) _].
  exists row. split; [exact Ht|]. split; [exact Hc|].
  rewrite Hp.
  assert (entry = 4000%float) as ->
    by (apply (inj Some); rewrite <- He; vm_compute; reflexivity).
  assert (exit = 4010%float) as ->
    by (apply (inj Some); rewrite <- Hx; vm_compute; reflexivity).
  assert (size = 2%float) as ->
    by (apply (inj Some); rewrite <- Hs; vm_compute; reflexivity).
  vm_compute. reflexivity.
Defined.

(** C9: a record saved from the Trade Tracker form has its net P&L computed
    with the multiplier 1.0 whatever the form says in its Instrument entry:
    the table holds what SQLite keeps of
    [calculate_pnl(entry, exit, size, direction, commission, 1.0)], and the
    same form with any other instrument saves the same P&L.  The
    per-instrument multipliers belong to the Profit Calculator, which does
    not write the table. *)
Theorem C9_saved_pnl_uses_default_multiplier
    (py_float : string → option float) (py_upper : string → string)
    (sqlite_numeric : string → option float) (candidate : Z)
    (data : trade_form) (st st' : app) :
  save_trade py_float sqlite_numeric candidate data st = Return st' →
  let id := Sqlite.new_rowid candidate (trades st) in
  ∃ entry exit size row,
    py_float (f_entry_price data) = Some entry
    ∧ py_float (f_exit_price data) = Some exit
    ∧ py_float (f_position_size data) = Some size
    ∧ trades st' !! id = Some row
    ∧ instrument row = f_instrument data
    ∧ pnl_net row
      = SqlValue.store_real
          (calculate_pnl entry exit size (f_direction data)
             (commission_per_contract (settings st)) 1%float)
    ∧ (∀ sym, ∃ st'' row',
         save_trade py_float sqlite_numeric candidate
           (with_instrument sym data) st = Return st''
         ∧ trades st'' !! id = Some row'
         ∧ instrument row' = sym
         ∧ pnl_net row' = pnl_net row)
    ∧ (∀ choice calc_entries st1,
         trades (calculate_profit py_float py_upper choice calc_entries st1)
         = trades st1).
Proof.
  intros Hsave id.
  apply save_trade_Return in Hsave as (entry & exit & size & He & Hx & Hs & ->).
  exists entry, exit, size. eexists.
  do 3 (split; [done|]). split; [apply lookup_insert_eq|].
  split; [reflexivity|]. split; [reflexivity|]. split.
  - intros sym. eexists _, _. split.
    + apply save_trade_Return. exists entry, exit, size. simpl. done.
    + split; [apply lookup_insert_eq|]. done.
  - intros. apply trades_calculate_profit.
Qed.

Lemma C9_saved_pnl_uses_default_multiplier_witness :
  ∃ st',
    sample_save_trade 0 es1_form initial_app = Return st'
    ∧ ∃ row,
        trades st' !! 1 = Some row
        ∧ instrument row = "ES1"
        ∧ pnl_net row = Some (calculate_pnl 4000 4010 2 "Long" 0.35 1)
        ∧ result_label
            (sample_calculate_profit "Futures" es1_calc_entries initial_app)
          = LabelPnl (calculate_pnl 4000 4010 2 "Long" 0.35 50) 0.35.
Proof.
  exists (sample_step (SaveTrade es1_form 0) initial_app).
  assert (sample_save_trade 0 es1_form initial_app
          = Return (sample_step (SaveTrade es1_form 0) initial_app))
    as H by (vm_compute; reflexivity).
  split; [exact H|].
  destruct (C9_saved_pnl_uses_default_multiplier PyFloat.of_decimal
              PyStr.upper_ascii sqlite_decimal 0 es1_form initial_app _ H)
    as (entry & exit & size & row & He & Hx & Hs & Ht & Hi & Hp & _).
  exists row. split; [exact Ht|]. split; [exact Hi|].
  split; [|vm_compute; reflexivity].
  rewrite Hp.
  assert (entry = 4000%float) as ->
    by (apply (inj Some); rewrite <- He; vm_compute; reflexivity).
  assert (exit = 4010%float) as ->
    by (apply (inj Some); rewrite <- Hx; vm_compute; reflexivity).
  assert (size = 2%float) as ->
    by (apply (inj Some); rewrite <- Hs; vm_compute; reflexivity).
  vm_compute. reflexivity.
Defined.

(** C10: [save_settings] on a text that is no number leaves the settings as
    they are and shows the error box; on a text that is a number the
    commission per contract becomes that number, the other settings stay,
    and the confirmation is shown.  Nothing else of the state changes. *)
Theorem C10_save_settings_atomic (py_float : string → option float)
    (text : string) (st : app) :
  let st' := save_settings py_float text st in
  (py_float text = None →
   settings st' = settings st
   ∧ dialogs st' = ErrorInvalidCommission :: dialogs st)
  ∧ (∀ v, py_float text = Some v →
       commission_per_contract (settings st') = v
       ∧ text_size (settings st') = text_size (settings st)
       ∧ dark_mode (settings st') = dark_mode (settings st)
       ∧ screenshot_folder (settings st') = screenshot_folder (settings st)
       ∧ dialogs st' = InfoSettingsUpdated :: dialogs st)
  ∧ trades st' = trades st
  ∧ history_tree st' = history_tree st
  ∧ result_label st' = result_label st.
Proof.
  unfold save_settings, to_float.
  destruct (py_float text) as [v|]; simpl.
  - split; [discriminate|]. split; [|done]. by intros ? [= <-].
  - split; [done|]. split; [discriminate|done].
Qed.

Lemma C10_save_settings_atomic_witness :
  (PyFloat.of_decimal "abc" = None
   ∧ PyFloat.of_decimal "0.5" = Some 0.5%float)
  ∧ settings (save_settings PyFloat.of_decimal "abc" initial_app)
    = default_settings
  ∧ commission_per_contract
      (settings (save_settings PyFloat.of_decimal "0.5" initial_app))
    = 0.5%float.
Proof.
  split; [split; vm_compute; reflexivity|]. split.
  - apply (proj1 (C10_save_settings_atomic PyFloat.of_decimal "abc"
                    initial_app)).
    vm_compute. reflexivity.
  - apply (proj1 (proj2 (C10_save_settings_atomic PyFloat.of_decimal "0.5"
                           initial_app)) 0.5%float).
    vm_compute. reflexivity.
Defined.

(** C4, as stated, fails in a table that uses the largest rowid.  There the
    new record receives an unused rowid below it, here the 5 that SQLite
    drew, and the list has the old record first. *)
Lemma C4_new_record_not_first :
  ∃ st' row,
    sample_save_trade 5 nq1_form max_rowid_app = Return st'
    ∧ trades st' !! 5 = Some row
    ∧ history_tree (load_history st')
      = [(Sqlite.max_rowid, summary_of es1_row); (5, summary_of row)]
    ∧ head (history_tree (load_history st')) ≠ Some (5, summary_of row).
Proof.
  eexists _, _. split; [vm_compute; reflexivity|].
  split; [vm_compute; reflexivity|].
  split; [vm_compute; reflexivity|].
  vm_compute. intros H. discriminate H.
Qed.

(** C4, amended: for every state of the table, the history list is the
    finite list of the summaries of its rows, largest id first; after a
    record is created the list holds that record, under an id that was free,
    and without it the list is as before; the record is first whenever the
    ids in the table were below the largest rowid 2^63 - 1 (where that rowid
    is in use, the record is listed at the place of the unused id SQLite
    gave it); after the record with a given id is deleted the list is the
    former list without the entry of that id. *)
Theorem C4_history_newest_first
    (py_float sqlite_numeric : string → option float) :
  (∀ st,
     let l := history_tree (load_history st) in
     StronglySorted (λ a b : Z * summary, b.1 < a.1) l
     ∧ (∀ k s, (k, s) ∈ l ↔ ∃ r, trades st !! k = Some r ∧ s = summary_of r))
  ∧ (∀ candidate data st st',
       save_trade py_float sqlite_numeric candidate data st = Return st' →
       let id := Sqlite.new_rowid candidate (trades st) in
       ∃ row,
         trades st !! id = None
         ∧ trades st' !! id = Some row
         ∧ (id, summary_of row) ∈ history_tree (load_history st')
         ∧ filter (λ x, x.1 ≠ id) (history_tree (load_history st'))
           = history_tree (load_history st)
         ∧ (Sqlite.rowids_below Sqlite.max_rowid (trades st) →
            history_tree (load_history st')
            = (id, summary_of row) :: history_tree (load_history st)))
  ∧ (∀ trade_id selected st,
       let l := history_tree (delete_trade (trade_id :: selected) st) in
       l = filter (λ x, x.1 ≠ trade_id) (history_tree (load_history st))
       ∧ history_tree (load_history (delete_trade (trade_id :: selected) st))
         = l
       ∧ trade_id ∉ l.*1).
Proof.
  split; [|split].
  - intros st. simpl. split.
    + apply SqliteFacts.select_strictly_desc.
    + intros k s. apply SqliteFacts.elem_of_select.
  - intros candidate data st st' Hsave.
    apply save_trade_Return in Hsave
      as (entry & exit & size & _ & _ & _ & ->).
    eexists. split; [apply SqliteFacts.new_rowid_fresh|].
    split; [apply lookup_insert_eq|]. simpl. split; [|split].
    + apply SqliteFacts.elem_of_select. eexists.
      split; [apply lookup_insert_eq|done].
    + apply SqliteFacts.select_insert_others.
    + intros Hbelow. apply SqliteFacts.select_insert_first.
      intros k Hk. by apply SqliteFacts.new_rowid_above.
  - intros trade_id selected st. simpl.
    rewrite SqliteFacts.select_delete. split; [done|]. split; [done|].
    intros ([k s] & Hk & [Hne _]%list_elem_of_filter)%list_elem_of_fmap.
    simpl in *. congruence.
Qed.

Lemma C4_history_newest_first_witness :
  ∃ st',
    sample_save_trade 0 es1_form initial_app = Return st'
    ∧ ∃ row,
        trades st' !! 1 = Some row
        ∧ history_tree (load_history st') = [(1, summary_of row)].
Proof.
  exists (sample_step (SaveTrade es1_form 0) initial_app).
  assert (sample_save_trade 0 es1_form initial_app
          = Return (sample_step (SaveTrade es1_form 0) initial_app))
    as H by (vm_compute; reflexivity).
  split; [exact H|].
  destruct (proj1 (proj2 (C4_history_newest_first PyFloat.of_decimal
                            sqlite_decimal)) 0 es1_form initial_app _ H)
    as (row & Hfree & Hrow & _ & _ & Hfirst).
  exists row. split; [exact Hrow|]. apply Hfirst.
  intros k Hk. simpl in Hk. rewrite lookup_empty in Hk.
  by apply is_Some_None in Hk.
Defined.

(** The Futures branch of [calculate_profit] on a complete form. *)
Lemma calculate_profit_try_futures (py_float : string → option float)
    (py_upper : string → string)
    (choice : string) (calc_entries : gmap string string) (c : float)
    (instrument direction contracts entry_text exit_text : string)
    (size entry exit : float) :
  choice ≠ "Stocks" → choice ≠ "Forex" →
  calc_entries !! "Instrument" = Some instrument →
  calc_entries !! "Direction (Long/Short)" = Some direction →
  calc_entries !! "Contracts" = Some contracts →
  calc_entries !! "Entry Price" = Some entry_text →
  calc_entries !! "Exit Price" = Some exit_text →
  py_float contracts = Some size →
  py_float entry_text = Some entry →
  py_float exit_text = Some exit →
  calculate_profit_try py_float py_upper choice calc_entries c
  = Return (calculate_pnl entry exit size direction c
              (PyFloat.of_int (multipliers_get (py_upper instrument)))).
Proof.
  intros Hs Hf Hi Hd Hc He Hx Hsize Hentry Hexit.
  unfold calculate_profit_try, entry_get, to_float.
  apply String.eqb_neq in Hs, Hf. rewrite Hs, Hf, Hi, Hd, Hc, He, Hx.
  simpl. rewrite Hsize. simpl. rewrite Hentry. simpl. rewrite Hexit.
  reflexivity.
Qed.

Lemma multipliers_get_default (sym : string) :
  sym ∉ ["NQ1"; "ES1"; "PL1"; "CL1"; "GC1"; "PA1"] →
  multipliers_get sym = 1.
Proof.
  intros Hsym. unfold multipliers_get, multipliers. simpl.
  rewrite !lookup_insert_ne, lookup_empty; [done|..];
    intros <-; apply Hsym; set_solver.
Qed.

(** C6: in the Futures branch the multiplier handed to the calculator is the
    table entry of the upper-cased instrument text, whatever [str.upper]
    makes of the text, the table being NQ1:20, ES1:50, PL1:50, CL1:1000,
    GC1:100, PA1:100 and 1 for every other symbol; and
    [calculate_pnl(4000, 4010, 2, "Long", 1.0, 50)] is 998. *)
Theorem C6_futures_multiplier :
  (∀ (py_float : string → option float) (py_upper : string → string)
     choice calc_entries st
     instrument direction contracts entry_text exit_text size entry exit,
     choice ≠ "Stocks" → choice ≠ "Forex" →
     calc_entries !! "Instrument" = Some instrument →
     calc_entries !! "Direction (Long/Short)" = Some direction →
     calc_entries !! "Contracts" = Some contracts →
     calc_entries !! "Entry Price" = Some entry_text →
     calc_entries !! "Exit Price" = Some exit_text →
     py_float contracts = Some size →
     py_float entry_text = Some entry →
     py_float exit_text = Some exit →
     let c := commission_per_contract (settings st) in
     let multiplier := multipliers_get (py_upper instrument) in
     result_label (calculate_profit py_float py_upper choice calc_entries st)
     = LabelPnl
         (calculate_pnl entry exit size direction c (PyFloat.of_int multiplier))
         c)
  ∧ (multipliers_get "NQ1" = 20 ∧ multipliers_get "ES1" = 50
     ∧ multipliers_get "PL1" = 50 ∧ multipliers_get "CL1" = 1000
     ∧ multipliers_get "GC1" = 100 ∧ multipliers_get "PA1" = 100)
  ∧ (∀ sym, sym ∉ ["NQ1"; "ES1"; "PL1"; "CL1"; "GC1"; "PA1"] →
       multipliers_get sym = 1)
  ∧ calculate_pnl 4000 4010 2 "Long" 1 (PyFloat.of_int 50) = 998%float.
Proof.
  split; [|split; [|split]].
  - intros py_float py_upper choice calc_entries st instrument direction
      contracts entry_text exit_text size entry exit Hs Hf Hi Hd Hc He Hx
      Hsize Hentry Hexit. simpl. unfold calculate_profit.
    by rewrite (calculate_profit_try_futures py_float py_upper choice
                  calc_entries _ instrument direction contracts entry_text
                  exit_text size entry exit).
  - repeat split; vm_compute; reflexivity.
  - apply multipliers_get_default.
  - vm_compute. reflexivity.
Qed.

Lemma C6_futures_multiplier_witness :
  PyStr.upper_ascii "es1" = "ES1"
  ∧ multipliers_get "ZB1" = 1
  ∧ result_label
      (sample_calculate_profit "Futures" es1_calc_entries initial_app)
    = LabelPnl (calculate_pnl 4000 4010 2 "Long" 0.35 50) 0.35.
Proof.
  split; [reflexivity|]. split.
  - apply (proj1 (proj2 (proj2 C6_futures_multiplier))).
    rewrite !not_elem_of_cons. repeat split; try discriminate.
    apply not_elem_of_nil.
  - apply (proj1 C6_futures_multiplier PyFloat.of_decimal PyStr.upper_ascii
             "Futures" es1_calc_entries initial_app "es1" "Long" "2" "4000"
             "4010" 2%float 4000%float 4010%float);
      first [discriminate | vm_compute; reflexivity].
Defined.

(** C5, at a form whose entry price is "abc": [save_trade] raises the
    [ValueError] of [float] and catches nothing, so the command ends without
    a message box and without a change of state; the calculator tab and the
    settings tab report the same text in their label and error box. *)
Theorem C5_save_trade_error_not_reported :
  PyFloat.of_decimal "abc" = None
  ∧ sample_save_trade 0 bad_entry_form initial_app
    = Raise (ValueError "abc")
  ∧ sample_step (SaveTrade bad_entry_form 0) initial_app
    = initial_app
  ∧ sample_calculate_profit "Stocks" bad_entry_calc_entries initial_app
    = set_result_label (LabelError (ValueError "abc")) initial_app
  ∧ save_settings PyFloat.of_decimal "abc" initial_app
    = show ErrorInvalidCommission initial_app.
Proof. repeat split; vm_compute; reflexivity. Qed.

(** On every form, a failed [save_trade] shows nothing and changes
    nothing. *)
Lemma save_trade_error_silent (py_float : string → option float)
    (py_upper : string → string) (sqlite_numeric : string → option float)
    (candidate : Z) (data : trade_form) (st : app) :
  py_float (f_entry_price data) = None
  ∨ py_float (f_exit_price data) = None
  ∨ py_float (f_position_size data) = None →
  (∃ text,
     save_trade py_float sqlite_numeric candidate data st
     = Raise (ValueError text))
  ∧ step py_float py_upper sqlite_numeric (SaveTrade data candidate) st = st.
Proof.
  intros H.
  apply (save_trade_Raise py_float sqlite_numeric candidate data st) in H
    as [text H].
  split; [by exists text|]. simpl. by rewrite H.
Qed.

(** [calculate_profit] catches what its [try] raises and shows it. *)
Lemma calculate_profit_reports (py_float : string → option float)
    (py_upper : string → string)
    (choice : string) (calc_entries : gmap string string) (st : app)
    (e : exn) :
  calculate_profit_try py_float py_upper choice calc_entries
    (commission_per_contract (settings st)) = Raise e →
  calculate_profit py_float py_upper choice calc_entries st
  = set_result_label (LabelError e) st.
Proof. intros H. unfold calculate_profit. by rewrite H. Qed.

(** ** The text conversion on samples *)

Example of_decimal_samples :
  PyFloat.of_decimal "0.35" = Some 0.35%float
  ∧ PyFloat.of_decimal "-4010" = Some (-4010)%float
  ∧ PyFloat.of_decimal "110.3" = Some 110.3%float
  ∧ PyFloat.of_decimal "9007199254740993" = Some 9007199254740992%float
  ∧ PyFloat.of_decimal ".5" = Some 0.5%float
  ∧ PyFloat.of_decimal "5." = Some 5%float
  ∧ PyFloat.of_decimal "" = None
  ∧ PyFloat.of_decimal "." = None
  ∧ PyFloat.of_decimal "1.2.3" = None
  ∧ PyFloat.of_decimal "abc" = None.
Proof. repeat split; vm_compute; reflexivity. Qed.

(** With realistic prices too the two directions do not add up to
    [-2 * c * size]. *)
Example sum_of_directions_rounds :
  (calculate_pnl 100.1 110.3 3 "Long" 0.35 1
   + calculate_pnl 100.1 110.3 3 "Short" 0.35 1)%float
  = (-2.1000000000000014)%float
  ∧ (-2 * 0.35 * 3)%float = (-2.0999999999999996)%float.
Proof. split; vm_compute; reflexivity. Qed.

(** ** Rowids over insertions and deletions *)
Module LedgerFacts.
Import Sqlite.

(** Deleting the row just inserted gives back the table. *)
Lemma delete_inserted (candidate : Z) (r : trade) (t : gmap Z trade) :
  delete_where_id (new_rowid candidate t) (insert candidate r t) = t.
Proof.
  unfold delete_where_id, insert.
  apply delete_insert_id, SqliteFacts.new_rowid_fresh.
Qed.

Lemma new_rowid_below_max (candidate : Z) (t : gmap Z trade) :
  rowids_below (max_rowid - 1) t → new_rowid candidate t < max_rowid.
Proof.
  intros Hbelow. unfold new_rowid.
  destruct (largest_rowid t) as [m|] eqn:E; [|done].
  apply SqliteFacts.largest_rowid_Some in E as [Hm _]. apply Hbelow in Hm.
  destruct (Z.ltb_spec m max_rowid); lia.
Qed.

(** While the rowids stay below [max_rowid], consecutive insertions receive
    consecutive rowids. *)
Lemma new_rowid_insert (candidate candidate' : Z) (r : trade)
    (t : gmap Z trade) :
  rowids_below (max_rowid - 1) t →
  new_rowid candidate' (insert candidate r t) = new_rowid candidate t + 1.
Proof.
  intros Hbelow.
  assert (rowids_below max_rowid t) as Hbelow'.
  { intros k Hk. apply Hbelow in Hk. lia. }
  pose proof (new_rowid_below_max candidate t Hbelow) as Hn.
  unfold new_rowid at 1.
  destruct (largest_rowid (insert candidate r t)) as [m|] eqn:E.
  - apply SqliteFacts.largest_rowid_Some in E as [Hm Hmax].
    assert (m = new_rowid candidate t) as ->.
    { assert (new_rowid candidate t ≤ m) as Hle.
      { apply Hmax. unfold insert. rewrite lookup_insert_eq. by eexists. }
      unfold insert in Hm.
      apply lookup_insert_is_Some' in Hm as [Heq|Hold]; [done|].
      apply (SqliteFacts.new_rowid_above candidate) in Hold; [lia|done]. }
    destruct (Z.ltb_spec (new_rowid candidate t) max_rowid); [done|lia].
  - apply SqliteFacts.largest_rowid_None in E. unfold insert in E.
    by apply insert_non_empty in E.
Qed.

Lemma size_rowids_within (n : Z) (t : gmap Z trade) :
  0 ≤ n → map_Forall (λ k _, 1 ≤ k ≤ n) t → Z.of_nat (size t) ≤ n.
Proof.
  intros Hn Ht.
  assert (dom t ⊆ (list_to_set (seqZ 1 n) : gset Z)) as Hsub.
  { intros k [r Hr]%elem_of_dom. apply Ht in Hr.
    apply elem_of_list_to_set, elem_of_seqZ. lia. }
  apply subseteq_size in Hsub.
  rewrite size_dom, size_list_to_set, length_seqZ in Hsub
    by apply NoDup_seqZ. lia.
Qed.

(** The new rowid of a table whose rowids lie in [1..n] lies in
    [1..n+1]. *)
Lemma new_rowid_bounds (candidate n : Z) (t : gmap Z trade) :
  0 ≤ n → map_Forall (λ k _, 1 ≤ k ≤ n) t →
  1 ≤ new_rowid candidate t ≤ n + 1.
Proof.
  intros Hn Ht.
  pose proof (size_rowids_within n t Hn Ht) as Hsize.
  pose proof (SqliteFacts.first_unused_bounds t) as Hfirst.
  unfold new_rowid. destruct (largest_rowid t) as [m|] eqn:E; [|lia].
  apply SqliteFacts.largest_rowid_Some in E as [[r Hm] _]. apply Ht in Hm.
  destruct (Z.ltb_spec m max_rowid); [lia|].
  destruct (Z.leb_spec 1 candidate), (Z.leb_spec candidate max_rowid);
    simpl; try lia.
  destruct (t !! candidate); lia.
Qed.

End LedgerFacts.

(** ** Saving, deleting and the history view *)

Lemma run_cons (py_float : string → option float)
    (py_upper : string → string) (sqlite_numeric : string → option float)
    (a : action) (acts : list action) (st : app) :
  run py_float py_upper sqlite_numeric (a :: acts) st
  = run py_float py_upper sqlite_numeric acts
      (step py_float py_upper sqlite_numeric a st).
Proof. reflexivity. Qed.

Lemma load_history_in_sync (st : app) : view_in_sync (load_history st).
Proof. reflexivity. Qed.

Lemma in_sync_valid (st : app) : view_in_sync st → view_valid st.
Proof.
  intros Hs k s Hin. rewrite Hs in Hin.
  by apply SqliteFacts.elem_of_select.
Qed.

Lemma select_length (t : gmap Z trade) :
  length (Sqlite.select_order_by_id_desc t) = size t.
Proof.
  unfold Sqlite.select_order_by_id_desc. rewrite length_fmap.
  rewrite SqliteFacts.rows_perm. apply length_map_to_list.
Qed.

(** X1: a record saved and then deleted leaves the table exactly as it was
    before the save, and the view lists that table. *)
Theorem X1_save_then_delete_restores_table
    (py_float sqlite_numeric : string → option float) (candidate : Z)
    (data : trade_form) (st st' : app) (selected : list Z) :
  save_trade py_float sqlite_numeric candidate data st = Return st' →
  let st'' :=
    delete_trade (Sqlite.new_rowid candidate (trades st) :: selected) st' in
  trades st'' = trades st
  ∧ history_tree st'' = Sqlite.select_order_by_id_desc (trades st).
Proof.
  intros Hsave.
  apply save_trade_Return in Hsave as (entry & exit & size & _ & _ & _ & ->).
  simpl. by rewrite LedgerFacts.delete_inserted.
Qed.

Lemma X1_save_then_delete_restores_table_witness :
  ∃ st',
    sample_save_trade 0 es1_form initial_app = Return st'
    ∧ trades (delete_trade [1] st') = ∅
    ∧ history_tree (delete_trade [1] st') = [].
Proof.
  exists (sample_step (SaveTrade es1_form 0) initial_app).
  assert (sample_save_trade 0 es1_form initial_app
          = Return (sample_step (SaveTrade es1_form 0) initial_app))
    as H by (vm_compute; reflexivity).
  split; [exact H|].
  exact (X1_save_then_delete_restores_table PyFloat.of_decimal
           sqlite_decimal 0 es1_form initial_app _ [] H).
Defined.



Lemma size_insert (candidate : Z) (r : trade) (t : gmap Z trade) :
  size (Sqlite.insert candidate r t) = S (size t).
Proof. apply map_size_insert_None, SqliteFacts.new_rowid_fresh. Qed.

(** X3: [save_trade] does not refresh the history view.  After a successful
    save the view is as before, so a view that showed the whole table lacks
    the new record until the next refresh; the table has one row more, and
    the settings and the result label are untouched. *)
Theorem X3_save_trade_leaves_view_stale
    (py_float sqlite_numeric : string → option float) (candidate : Z)
    (data : trade_form) (st st' : app) :
  save_trade py_float sqlite_numeric candidate data st = Return st' →
  history_tree st' = history_tree st
  ∧ (view_in_sync st → ¬ view_in_sync st')
  ∧ (view_valid st →
     Sqlite.new_rowid candidate (trades st) ∉ (history_tree st').*1)
  ∧ view_in_sync (load_history st')
  ∧ size (trades st') = S (size (trades st))
  ∧ settings st' = settings st
  ∧ result_label st' = result_label st.
Proof.
  intros Hsave.
  apply save_trade_Return in Hsave as (entry & exit & sz & _ & _ & _ & ->).
  pose proof (size_insert candidate
                (trade_row sqlite_numeric data entry exit sz
                   (f_direction data)
                   (calculate_pnl entry exit sz (f_direction data)
                      (commission_per_contract (settings st))
                      default_multiplier)
                   (commission_per_contract (settings st)))
                (trades st)) as Hsize.
  split; [done|]. split; [|split; [|split; [done|split; [|done]]]].
  - unfold view_in_sync. simpl. intros -> Heq.
    apply (f_equal length) in Heq. rewrite !select_length, Hsize in Heq.
    lia.
  - intros Hv ([k s] & Hk & Hin)%list_elem_of_fmap. simpl in *. subst k.
    apply Hv in Hin as (r & Hr & _).
    by rewrite SqliteFacts.new_rowid_fresh in Hr.
  - simpl. exact Hsize.
Qed.

Lemma X3_save_trade_leaves_view_stale_witness :
  ∃ st',
    sample_save_trade 0 es1_form (startup None) = Return st'
    ∧ history_tree st' = []
    ∧ size (trades st') = 1%nat.
Proof.
  exists (sample_step (SaveTrade es1_form 0) (startup None)).
  assert (sample_save_trade 0 es1_form (startup None)
          = Return (sample_step (SaveTrade es1_form 0) (startup None)))
    as H by (vm_compute; reflexivity).
  destruct (X3_save_trade_leaves_view_stale PyFloat.of_decimal
              sqlite_decimal 0 es1_form (startup None) _ H)
    as (Hh & _ & _ & _ & Hs & _).
  split; [exact H|]. split; [exact Hh | exact Hs].
Defined.

Lemma step_view_valid (py_float : string → option float)
    (py_upper : string → string) (sqlite_numeric : string → option float)
    (a : action) (st : app) :
  view_valid st → view_valid (step py_float py_upper sqlite_numeric a st).
Proof.
  intros Hv.
  destruct a as [data candidate| |selected|choice entries|text]; simpl.
  - destruct (save_trade py_float sqlite_numeric candidate data st)
      as [st'|e] eqn:E; [|done].
    apply save_trade_Return in E as (entry & exit & size & _ & _ & _ & ->).
    intros k s Hin. simpl in *. destruct (Hv k s Hin) as (r & Hr & ->).
    exists r. split; [|done]. unfold Sqlite.insert.
    rewrite lookup_insert_ne; [done|].
    intros <-. by rewrite SqliteFacts.new_rowid_fresh in Hr.
  - apply in_sync_valid, load_history_in_sync.
  - destruct selected; [done|]. apply in_sync_valid, load_history_in_sync.
  - unfold calculate_profit.
    by destruct (calculate_profit_try _ _ _ _ _).
  - unfold save_settings. by destruct (to_float py_float text).
Qed.

(** X4: from the start of the application on, whatever the user does, every
    line of the history view shows a record that is in the table, with the
    date, instrument, P&L and commission stored there; so a selection in the
    view always names an existing record. *)
Theorem X4_view_lines_are_rows (py_float : string → option float)
    (py_upper : string → string) (sqlite_numeric : string → option float)
    (db : option (gmap Z trade)) (acts : list action) :
  view_valid (run py_float py_upper sqlite_numeric acts (startup db)).
Proof.
  assert (view_valid (startup db)) as Hv
    by apply in_sync_valid, load_history_in_sync.
  revert Hv. generalize (startup db).
  induction acts as [|a acts IH]; intros st Hv; [done|].
  rewrite run_cons. by apply IH, step_view_valid.
Qed.

Lemma step_in_sync (py_float : string → option float)
    (py_upper : string → string) (sqlite_numeric : string → option float)
    (a : action) (st : app) :
  is_save_trade a = false → view_in_sync st →
  view_in_sync (step py_float py_upper sqlite_numeric a st).
Proof.
  intros Ha Hs.
  destruct a as [data candidate| |selected|choice entries|text]; simpl.
  - discriminate Ha.
  - apply load_history_in_sync.
  - destruct selected; [done|]. apply load_history_in_sync.
  - unfold calculate_profit.
    by destruct (calculate_profit_try _ _ _ _ _).
  - unfold save_settings. by destruct (to_float py_float text).
Qed.

(** X5: the history view goes out of date only through a save.  It shows the
    whole table when the application starts, and after any sequence of
    refreshes, deletions, calculations and settings changes it still does. *)
Theorem X5_view_in_sync_without_saves (py_float : string → option float)
    (py_upper : string → string) (sqlite_numeric : string → option float)
    (db : option (gmap Z trade)) (acts : list action) :
  Forall (λ a, is_save_trade a = false) acts →
  view_in_sync (run py_float py_upper sqlite_numeric acts (startup db)).
Proof.
  pose proof (load_history_in_sync
                {| settings := default_settings;
                   trades := create_table_if_not_exists db;
                   history_tree := []; dialogs := [];
                   result_label := LabelEmpty |}) as Hs.
  change (view_in_sync (startup db)) in Hs.
  revert Hs. generalize (startup db).
  induction acts as [|a acts IH]; intros st Hs Hacts; [done|].
  apply Forall_cons in Hacts as [Ha Hacts].
  rewrite run_cons. apply IH; [|done]. by apply step_in_sync.
Qed.

Lemma X5_view_in_sync_without_saves_witness :
  view_in_sync
    (sample_run
       [DeleteSelected [2]; SaveSettings "0.5"; Refresh;
        CalculateProfit "Futures" es1_calc_entries]
       (startup (Some (trades
                         (sample_step (SaveTrade es1_form 0)
                            initial_app))))).
Proof.
  apply (X5_view_in_sync_without_saves PyFloat.of_decimal PyStr.upper_ascii
           sqlite_decimal).
  repeat constructor.
Defined.

(** X6: [delete_trade] deletes the first selected record and no other, also
    when several lines are selected; deleting a rowid the table does not
    have leaves the table as it is; and deleting the same record again
    changes nothing. *)
Theorem X6_delete_removes_first_selected_only (trade_id : Z)
    (selected : list Z) (st : app) :
  let st' := delete_trade (trade_id :: selected) st in
  trades st' !! trade_id = None
  ∧ (∀ k, k ≠ trade_id → trades st' !! k = trades st !! k)
  ∧ (trades st !! trade_id = None → trades st' = trades st)
  ∧ (∀ selected', delete_trade (trade_id :: selected') st' = st').
Proof.
  simpl. split; [apply lookup_delete_eq|]. split; [|split].
  - intros k Hk. unfold Sqlite.delete_where_id. by rewrite lookup_delete_ne.
  - intros Hk. by apply delete_id.
  - intros selected'. unfold load_history, set_history_tree, set_trades.
    simpl. unfold Sqlite.delete_where_id. by rewrite delete_delete_eq.
Qed.

Lemma X6_delete_removes_first_selected_only_witness :
  let st :=
    sample_run [SaveTrade es1_form 0; SaveTrade nq1_form 0] initial_app in
  (2 ≠ 1 ∧ trades (delete_trade [7] st) = trades st)
  ∧ trades (delete_trade [1; 2] st) !! 2 = trades st !! 2.
Proof.
  intros st. split; [split; [lia|]|].
  - apply (proj1 (proj2 (proj2
             (X6_delete_removes_first_selected_only 7 [] st)))).
    vm_compute. reflexivity.
  - apply (proj1 (proj2 (X6_delete_removes_first_selected_only 1 [2] st))).
    lia.
Defined.

(** X7: [save_trade] converts the entry price, the exit price and the
    position size, in this order, and nothing else: it raises the
    [ValueError] of the first of the three that is no number, and it succeeds
    whenever the three are numbers, whatever the other fifteen entries
    hold. *)
Theorem X7_save_trade_checks_three_numbers_in_order
    (py_float sqlite_numeric : string → option float) (candidate : Z)
    (data : trade_form) (st : app) :
  (py_float (f_entry_price data) = None →
   save_trade py_float sqlite_numeric candidate data st
   = Raise (ValueError (f_entry_price data)))
  ∧ (is_Some (py_float (f_entry_price data)) →
     py_float (f_exit_price data) = None →
     save_trade py_float sqlite_numeric candidate data st
     = Raise (ValueError (f_exit_price data)))
  ∧ (is_Some (py_float (f_entry_price data)) →
     is_Some (py_float (f_exit_price data)) →
     py_float (f_position_size data) = None →
     save_trade py_float sqlite_numeric candidate data st
     = Raise (ValueError (f_position_size data)))
  ∧ (is_Some (py_float (f_entry_price data)) →
     is_Some (py_float (f_exit_price data)) →
     is_Some (py_float (f_position_size data)) →
     ∃ st', save_trade py_float sqlite_numeric candidate data st = Return st').
Proof.
  unfold save_trade, to_float.
  destruct (py_float (f_entry_price data)) as [entry|];
    destruct (py_float (f_exit_price data)) as [exit|];
    destruct (py_float (f_position_size data)) as [size|]; simpl;
    repeat split; intros; try done;
    repeat match goal with
           | H : is_Some None |- _ => by apply is_Some_None in H
           end;
    by eexists.
Qed.

Lemma X7_save_trade_checks_three_numbers_in_order_witness :
  sample_save_trade 0 two_bad_numbers_form initial_app
  = Raise (ValueError "x").
Proof.
  apply (proj1 (proj2 (X7_save_trade_checks_three_numbers_in_order
                         PyFloat.of_decimal sqlite_decimal 0
                         two_bad_numbers_form initial_app))).
  - vm_compute. by eexists.
  - vm_compute. reflexivity.
Defined.

Lemma settings_step (py_float : string → option float)
    (py_upper : string → string) (sqlite_numeric : string → option float)
    (a : action) (st : app) :
  is_save_settings a = false →
  settings (step py_float py_upper sqlite_numeric a st) = settings st.
Proof.
  intros Ha.
  destruct a as [data candidate| |selected|choice entries|text]; simpl.
  - destruct (save_trade py_float sqlite_numeric candidate data st)
      as [st'|e] eqn:E; [|done].
    by apply save_trade_Return in E
      as (entry & exit & size & _ & _ & _ & ->).
  - done.
  - by destruct selected.
  - unfold calculate_profit.
    by destruct (calculate_profit_try _ _ _ _ _).
  - discriminate Ha.
Qed.

(** X8: the settings change through Save Settings only: any sequence of
    saves, refreshes, deletions and calculations leaves all four settings as
    they are. *)
Theorem X8_settings_change_only_by_save_settings
    (py_float : string → option float) (py_upper : string → string)
    (sqlite_numeric : string → option float)
    (acts : list action) (st : app) :
  Forall (λ a, is_save_settings a = false) acts →
  settings (run py_float py_upper sqlite_numeric acts st) = settings st.
Proof.
  revert st. induction acts as [|a acts IH]; intros st Hacts; [done|].
  apply Forall_cons in Hacts as [Ha Hacts].
  rewrite run_cons, IH by done. by apply settings_step.
Qed.

Lemma X8_settings_change_only_by_save_settings_witness :
  settings
    (sample_run
       [SaveTrade es1_form 0; Refresh; DeleteSelected [1];
        CalculateProfit "Stocks" bad_entry_calc_entries;
        SaveTrade bad_entry_form 0]
       initial_app)
  = default_settings.
Proof.
  apply (X8_settings_change_only_by_save_settings PyFloat.of_decimal
           PyStr.upper_ascii sqlite_decimal).
  repeat constructor.
Defined.

(** X9: a change of the commission acts on later saves only.  Of two records
    saved before and after a successful Save Settings, the first holds the
    rate that was current at its save and the second the new rate, each as
    SQLite keeps a float, and both hold what SQLite keeps of the
    calculator's output for their own numbers; while the rowids in the table
    stay below the largest rowid, the second record receives the rowid
    following the first. *)
Theorem X9_commission_change_acts_on_later_saves
    (py_float sqlite_numeric : string → option float)
    (candidate1 candidate2 : Z) (data1 data2 : trade_form)
    (text : string) (v : float) (st st1 st2 : app) :
  save_trade py_float sqlite_numeric candidate1 data1 st = Return st1 →
  py_float text = Some v →
  save_trade py_float sqlite_numeric candidate2 data2
    (save_settings py_float text st1) = Return st2 →
  let id1 := Sqlite.new_rowid candidate1 (trades st) in
  let id2 := Sqlite.new_rowid candidate2 (trades st1) in
  ∃ row1 row2,
    id1 ≠ id2
    ∧ trades st2 !! id1 = Some row1
    ∧ trades st2 !! id2 = Some row2
    ∧ commission row1
      = SqlValue.store_real (commission_per_contract (settings st))
    ∧ commission row2 = SqlValue.store_real v
    ∧ stored_consistent row1 ∧ stored_consistent row2
    ∧ (Sqlite.rowids_below (Sqlite.max_rowid - 1) (trades st) →
       id2 = id1 + 1).
Proof.
  intros H1 Hv H2.
  apply save_trade_Return in H1 as (e1 & x1 & s1 & _ & _ & _ & ->).
  apply save_trade_Return in H2 as (e2 & x2 & s2 & _ & _ & _ & ->).
  unfold save_settings, to_float. rewrite Hv. simpl.
  set (row1 := trade_row sqlite_numeric data1 e1 x1 s1 (f_direction data1)
                 (calculate_pnl e1 x1 s1 (f_direction data1)
                    (commission_per_contract (settings st))
                    default_multiplier)
                 (commission_per_contract (settings st))).
  assert (Sqlite.new_rowid candidate1 (trades st)
          ≠ Sqlite.new_rowid candidate2
              (Sqlite.insert candidate1 row1 (trades st))) as Hne.
  { intros Heq.
    pose proof (SqliteFacts.new_rowid_fresh candidate2
                  (Sqlite.insert candidate1 row1 (trades st))) as Hfresh.
    rewrite <- Heq in Hfresh. unfold Sqlite.insert in Hfresh.
    by rewrite lookup_insert_eq in Hfresh. }
  exists row1. eexists. split; [exact Hne|]. split; [|split].
  - unfold Sqlite.insert at 1. rewrite lookup_insert_ne by done.
    apply lookup_insert_eq.
  - apply lookup_insert_eq.
  - split; [done|]. split; [done|].
    split; [apply trade_row_consistent|].
    split; [apply trade_row_consistent|].
    intros Hbelow. by apply LedgerFacts.new_rowid_insert.
Qed.

Lemma X9_commission_change_acts_on_later_saves_witness :
  ∃ st1 st2 row1 row2,
    sample_save_trade 0 es1_form initial_app = Return st1
    ∧ sample_save_trade 0 nq1_form
        (save_settings PyFloat.of_decimal "0.5" st1) = Return st2
    ∧ trades st2 !! 1 = Some row1 ∧ trades st2 !! 2 = Some row2
    ∧ commission row1 = Some 0.35%float
    ∧ commission row2 = Some 0.5%float.
Proof.
  exists (sample_step (SaveTrade es1_form 0) initial_app).
  exists (sample_run
            [SaveTrade es1_form 0; SaveSettings "0.5"; SaveTrade nq1_form 0]
            initial_app).
  assert (sample_save_trade 0 es1_form initial_app
          = Return (sample_step (SaveTrade es1_form 0) initial_app))
    as H1 by (vm_compute; reflexivity).
  assert (PyFloat.of_decimal "0.5" = Some 0.5%float)
    as Hv by (vm_compute; reflexivity).
  assert (sample_save_trade 0 nq1_form
            (save_settings PyFloat.of_decimal "0.5"
               (sample_step (SaveTrade es1_form 0) initial_app))
          = Return
              (sample_run
                 [SaveTrade es1_form 0; SaveSettings "0.5";
                  SaveTrade nq1_form 0]
                 initial_app))
    as H2 by (vm_compute; reflexivity).
  destruct (X9_commission_change_acts_on_later_saves PyFloat.of_decimal
              sqlite_decimal 0 0 es1_form nq1_form "0.5" 0.5%float
              initial_app _ _ H1 Hv H2)
    as (row1 & row2 & _ & Hr1 & Hr2 & Hc1 & Hc2 & _).
  exists row1, row2. split; [exact H1|]. split; [exact H2|].
  split; [exact Hr1|]. split; [exact Hr2|]. split; [exact Hc1 | exact Hc2].
Defined.

Lemma step_ids_bounded (py_float : string → option float)
    (py_upper : string → string) (sqlite_numeric : string → option float)
    (a : action) (st : app) (n : Z) :
  0 ≤ n →
  map_Forall (λ k _, 1 ≤ k ≤ n) (trades st) →
  map_Forall (λ k _, 1 ≤ k ≤ n + (if is_save_trade a then 1 else 0))
    (trades (step py_float py_upper sqlite_numeric a st)).
Proof.
  intros Hn Hst.
  assert (∀ m, 0 ≤ m → map_Forall (λ k (_ : trade), 1 ≤ k ≤ n + m)
                         (trades st)) as Hw.
  { intros m Hm k r Hk. apply Hst in Hk. lia. }
  destruct a as [data candidate| |selected|choice entries|text]; simpl.
  - destruct (save_trade py_float sqlite_numeric candidate data st)
      as [st'|e] eqn:E; [|apply Hw; lia].
    apply save_trade_Return in E as (entry & exit & size & _ & _ & _ & ->).
    simpl. apply map_Forall_insert_2; [|apply Hw; lia].
    by apply LedgerFacts.new_rowid_bounds.
  - apply Hw. lia.
  - destruct selected as [|trade_id ?]; [apply Hw; lia|]. simpl.
    apply map_Forall_delete, Hw. lia.
  - rewrite trades_calculate_profit. apply Hw. lia.
  - rewrite trades_save_settings. apply Hw. lia.
Qed.

Lemma run_ids_bounded (py_float : string → option float)
    (py_upper : string → string) (sqlite_numeric : string → option float)
    (acts : list action) (st : app) (n : Z) :
  0 ≤ n →
  map_Forall (λ k _, 1 ≤ k ≤ n) (trades st) →
  map_Forall
    (λ k _, 1 ≤ k ≤ n + Z.of_nat (length (filter is_save_trade acts)))
    (trades (run py_float py_upper sqlite_numeric acts st)).
Proof.
  revert st n. induction acts as [|a acts IH]; intros st n Hn Hst.
  - simpl. intros k r Hk. apply Hst in Hk. lia.
  - rewrite run_cons.
    pose proof (step_ids_bounded py_float py_upper sqlite_numeric a st n
                  Hn Hst) as Hstep.
    apply IH in Hstep; [|destruct (is_save_trade a); lia].
    intros k r Hk. apply Hstep in Hk. rewrite filter_cons.
    destruct (is_save_trade a) eqn:Ea.
    + rewrite decide_True by done. simpl length. lia.
    + rewrite decide_False by (simpl; tauto). lia.
Qed.

(** X10: with a new database file, the rowids in the table are positive and
    never exceed the number of Save Trade commands given so far. *)
Theorem X10_rowids_bounded_by_saves (py_float : string → option float)
    (py_upper : string → string) (sqlite_numeric : string → option float)
    (acts : list action) (k : Z) (r : trade) :
  trades (run py_float py_upper sqlite_numeric acts (startup None)) !! k
  = Some r →
  1 ≤ k ≤ Z.of_nat (length (filter is_save_trade acts)).
Proof.
  intros Hk.
  pose proof (run_ids_bounded py_float py_upper sqlite_numeric acts
                (startup None) 0) as H.
  apply H in Hk; [lia|lia|]. intros k' r' Hk'. simpl in Hk'.
  by rewrite lookup_empty in Hk'.
Qed.

Lemma X10_rowids_bounded_by_saves_witness :
  ∃ r,
    trades
      (sample_run [SaveTrade es1_form 0; Refresh; SaveTrade nq1_form 0]
         (startup None)) !! 2 = Some r
    ∧ 1 ≤ 2 ≤ 2.
Proof.
  exists nq1_row. split; [vm_compute; reflexivity|].
  apply (X10_rowids_bounded_by_saves PyFloat.of_decimal PyStr.upper_ascii
           sqlite_decimal
           [SaveTrade es1_form 0; Refresh; SaveTrade nq1_form 0] 2 nq1_row).
  vm_compute. reflexivity.
Defined.

(** ** The calculator form and the three branches *)

Lemma entry_get_Some (entries : gmap string string) (key text : string) :
  entries !! key = Some text → entry_get entries key = Return text.
Proof. intros H. unfold entry_get. by rewrite H. Qed.

Lemma entry_get_None (entries : gmap string string) (key : string) :
  entries !! key = None → entry_get entries key = Raise (KeyError key).
Proof. intros H. unfold entry_get. by rewrite H. Qed.

Lemma to_float_Some (py_float : string → option float) (text : string)
    (v : float) :
  py_float text = Some v → to_float py_float text = Return v.
Proof. intros H. unfold to_float. by rewrite H. Qed.

Lemma to_float_None (py_float : string → option float) (text : string) :
  py_float text = None → to_float py_float text = Raise (ValueError text).
Proof. intros H. unfold to_float. by rewrite H. Qed.

(** X11: in the Stocks branch the trade is always long and the multiplier is
    1: the label shows [(exit - entry) * size * 1 - commission * size] for
    the three numbers of the form, whatever else the form holds. *)
Theorem X11_stocks_always_long (py_float : string → option float)
    (py_upper : string → string)
    (calc_entries : gmap string string) (st : app)
    (size_text entry_text exit_text : string) (size entry exit : float) :
  calc_entries !! "Position Size" = Some size_text →
  calc_entries !! "Entry Price" = Some entry_text →
  calc_entries !! "Exit Price" = Some exit_text →
  py_float size_text = Some size →
  py_float entry_text = Some entry →
  py_float exit_text = Some exit →
  let c := commission_per_contract (settings st) in
  calculate_profit py_float py_upper "Stocks" calc_entries st
  = set_result_label
      (LabelPnl ((exit - entry) * size * 1 - c * size)%float c) st.
Proof.
  intros Hs He Hx Hsize Hentry Hexit c.
  unfold calculate_profit, calculate_profit_try. simpl.
  rewrite (entry_get_Some _ _ _ Hs), (entry_get_Some _ _ _ He),
    (entry_get_Some _ _ _ Hx). simpl.
  rewrite (to_float_Some _ _ _ Hsize). simpl.
  rewrite (to_float_Some _ _ _ Hentry). simpl.
  rewrite (to_float_Some _ _ _ Hexit). simpl.
  reflexivity.
Qed.

Lemma X11_stocks_always_long_witness :
  sample_calculate_profit "Stocks" stocks_calc_entries
    initial_app
  = set_result_label
      (LabelPnl ((110 - 100) * 10 * 1 - 0.35 * 10)%float 0.35%float)
      initial_app.
Proof.
  apply (X11_stocks_always_long PyFloat.of_decimal PyStr.upper_ascii
           stocks_calc_entries
           initial_app "10" "100" "110"); vm_compute; reflexivity.
Defined.

(** X12: in the Forex branch the size handed to the calculator is the number
    of lots times 100000 and the multiplier is 0.0001; the Currency Pair
    entry is not read. *)
Theorem X12_forex_lot_scaling (py_float : string → option float)
    (py_upper : string → string)
    (calc_entries : gmap string string) (st : app)
    (direction lots_text entry_text exit_text : string)
    (lots entry exit : float) :
  calc_entries !! "Direction (Long/Short)" = Some direction →
  calc_entries !! "Trade Size (lots)" = Some lots_text →
  calc_entries !! "Entry Price" = Some entry_text →
  calc_entries !! "Exit Price" = Some exit_text →
  py_float lots_text = Some lots →
  py_float entry_text = Some entry →
  py_float exit_text = Some exit →
  let c := commission_per_contract (settings st) in
  calculate_profit py_float py_upper "Forex" calc_entries st
  = set_result_label
      (LabelPnl
         (calculate_pnl entry exit (lots * 100000)%float direction c
            0.0001%float) c) st.
Proof.
  intros Hd Hs He Hx Hlots Hentry Hexit c.
  unfold calculate_profit, calculate_profit_try. simpl.
  rewrite (entry_get_Some _ _ _ Hd), (entry_get_Some _ _ _ Hs),
    (entry_get_Some _ _ _ He), (entry_get_Some _ _ _ Hx). simpl.
  rewrite (to_float_Some _ _ _ Hlots). simpl.
  rewrite (to_float_Some _ _ _ Hentry). simpl.
  rewrite (to_float_Some _ _ _ Hexit). simpl.
  reflexivity.
Qed.

Lemma X12_forex_lot_scaling_witness :
  sample_calculate_profit "Forex"
    (delete "Currency Pair" eurusd_calc_entries) initial_app
  = set_result_label
      (LabelPnl (calculate_pnl 1.1 1.105 100000 "Long" 0.35 0.0001)
         0.35%float) initial_app.
Proof.
  apply (X12_forex_lot_scaling PyFloat.of_decimal PyStr.upper_ascii
           (delete "Currency Pair" eurusd_calc_entries) initial_app
           "Long" "1" "1.1000" "1.1050" 1%float 1.1%float 1.105%float);
    vm_compute; reflexivity.
Defined.

Lemma update_calc_fields_lookup (choice field : string) :
  update_calc_fields choice !! field
  = if decide (field ∈ calc_fields choice) then Some "" else None.
Proof.
  unfold update_calc_fields.
  assert (∀ (l : list string) (m : gmap string string),
            foldl (λ entries f, <[f := ""]> entries) m l !! field
            = if decide (field ∈ l) then Some "" else m !! field) as H.
  { induction l as [|f l IH]; intros m; cbn [foldl].
    - by rewrite decide_False by apply not_elem_of_nil.
    - rewrite IH. destruct (decide (field ∈ l)) as [Hin|Hnin].
      + by rewrite decide_True by (by right).
      + destruct (decide (f = field)) as [->|Hne].
        * rewrite decide_True by (by left). apply lookup_insert_eq.
        * rewrite lookup_insert_ne by done.
          rewrite decide_False; [done|].
          rewrite not_elem_of_cons. split; [congruence|done]. }
  rewrite H. by rewrite lookup_empty.
Qed.

(** The entries of the form built for a choice are the fields of the
    choice, all of them empty. *)
Lemma update_calc_fields_spec (choice field : string) :
  (field ∈ calc_fields choice →
   update_calc_fields choice !! field = Some "")
  ∧ (field ∉ calc_fields choice →
     update_calc_fields choice !! field = None).
Proof.
  rewrite update_calc_fields_lookup. split; intros H.
  - by rewrite decide_True.
  - by rewrite decide_False.
Qed.

(** Reading the three numbers of a branch, once the texts are there. *)
Ltac read_number py_float text :=
  let v := fresh "v" in
  let E := fresh "E" in
  destruct (py_float text) as [v|] eqn:E;
  [rewrite (to_float_Some _ _ _ E)
  |rewrite (to_float_None _ _ E)]; cbn [mbind result_bind];
  [|right; eexists _, text;
    split; [|split; [eassumption|split; [exact E|reflexivity]]];
    repeat constructor].

(** X13: when the form holds an entry for every field of the chosen
    instrument type, as the form built by [update_calc_fields] for that type
    does, [calculate_profit] never fails on a missing entry: it finds a
    result, or it reports the [ValueError] of an entry of the form that is
    no number. *)
Theorem X13_matching_form_has_every_entry
    (py_float : string → option float) (py_upper : string → string)
    (choice : string)
    (calc_entries : gmap string string) (c : float) :
  (∀ field, field ∈ calc_fields choice → is_Some (calc_entries !! field)) →
  (∃ pnl, calculate_profit_try py_float py_upper choice calc_entries c = Return pnl)
  ∨ (∃ field text,
       field ∈ calc_fields choice
       ∧ calc_entries !! field = Some text
       ∧ py_float text = None
       ∧ calculate_profit_try py_float py_upper choice calc_entries c
         = Raise (ValueError text)).
Proof.
  intros Hall. unfold calculate_profit_try, calc_fields in *.
  destruct (String.eqb choice "Stocks") eqn:E1;
    [|destruct (String.eqb choice "Forex") eqn:E2].
  - destruct (Hall "Position Size") as [ts Hs]; [repeat constructor|].
    destruct (Hall "Entry Price") as [te He]; [repeat constructor|].
    destruct (Hall "Exit Price") as [tx Hx]; [repeat constructor|].
    rewrite (entry_get_Some _ _ _ Hs), (entry_get_Some _ _ _ He),
      (entry_get_Some _ _ _ Hx). cbn [mbind result_bind].
    read_number py_float ts. read_number py_float te.
    read_number py_float tx. left. by eexists.
  - destruct (Hall "Direction (Long/Short)") as [td Hd];
      [repeat constructor|].
    destruct (Hall "Trade Size (lots)") as [ts Hs]; [repeat constructor|].
    destruct (Hall "Entry Price") as [te He]; [repeat constructor|].
    destruct (Hall "Exit Price") as [tx Hx]; [repeat constructor|].
    rewrite (entry_get_Some _ _ _ Hd), (entry_get_Some _ _ _ Hs),
      (entry_get_Some _ _ _ He), (entry_get_Some _ _ _ Hx).
    cbn [mbind result_bind].
    read_number py_float ts. read_number py_float te.
    read_number py_float tx. left. by eexists.
  - destruct (Hall "Instrument") as [ti Hi]; [repeat constructor|].
    destruct (Hall "Direction (Long/Short)") as [td Hd];
      [repeat constructor|].
    destruct (Hall "Contracts") as [ts Hs]; [repeat constructor|].
    destruct (Hall "Entry Price") as [te He]; [repeat constructor|].
    destruct (Hall "Exit Price") as [tx Hx]; [repeat constructor|].
    rewrite (entry_get_Some _ _ _ Hi), (entry_get_Some _ _ _ Hd),
      (entry_get_Some _ _ _ Hs), (entry_get_Some _ _ _ He),
      (entry_get_Some _ _ _ Hx). cbn [mbind result_bind].
    read_number py_float ts. read_number py_float te.
    read_number py_float tx. left. by eexists.
Qed.

Lemma X13_matching_form_has_every_entry_witness :
  (∃ pnl,
     calculate_profit_try PyFloat.of_decimal PyStr.upper_ascii "Forex"
       (update_calc_fields "Forex") 0.35 = Return pnl)
  ∨ (∃ field text,
       field ∈ calc_fields "Forex"
       ∧ update_calc_fields "Forex" !! field = Some text
       ∧ PyFloat.of_decimal text = None
       ∧ calculate_profit_try PyFloat.of_decimal PyStr.upper_ascii "Forex"
           (update_calc_fields "Forex") 0.35
         = Raise (ValueError text)).
Proof.
  apply (X13_matching_form_has_every_entry PyFloat.of_decimal
           PyStr.upper_ascii "Forex"
           (update_calc_fields "Forex") 0.35%float).
  intros field Hin.
  rewrite (proj1 (update_calc_fields_spec "Forex" field) Hin). by eexists.
Defined.

(** X14: a form built for one instrument type and calculated under another
    (the text of the instrument type box was changed without a new
    selection) always ends in the error of a missing entry, before any
    number is converted: whatever the entries hold, the label shows the
    [KeyError] of a field the form does not have. *)
Theorem X14_form_of_other_type_reports_key_error
    (py_float : string → option float) (py_upper : string → string)
    (built_for choice : string)
    (calc_entries : gmap string string) (st : app) :
  dom calc_entries = list_to_set (calc_fields built_for) →
  calc_fields built_for ≠ calc_fields choice →
  ∃ key,
    key ∈ calc_fields choice
    ∧ (key ∉ calc_fields built_for)
    ∧ calculate_profit py_float py_upper choice calc_entries st
      = set_result_label (LabelError (KeyError key)) st.
Proof.
  intros Hdom Hne.
  assert (∀ key, key ∉ calc_fields built_for → calc_entries !! key = None)
    as Hnone.
  { intros key Hk. apply not_elem_of_dom. rewrite Hdom.
    by rewrite elem_of_list_to_set. }
  assert (∀ key, key ∈ calc_fields built_for →
                 ∃ text, calc_entries !! key = Some text) as Hsome.
  { intros key Hk. apply (elem_of_dom (D := gset string)). rewrite Hdom.
    by rewrite elem_of_list_to_set. }
  unfold calculate_profit, calculate_profit_try.
  unfold calc_fields in *.
  destruct (String.eqb built_for "Stocks") eqn:B1;
    [|destruct (String.eqb built_for "Forex") eqn:B2];
    (destruct (String.eqb choice "Stocks") eqn:C1;
      [|destruct (String.eqb choice "Forex") eqn:C2]);
    try done.
  - exists "Direction (Long/Short)".
    split; [repeat constructor|]. split; [compute_done|].
    rewrite (entry_get_None _ "Direction (Long/Short)")
      by (apply Hnone; compute_done). done.
  - exists "Instrument".
    split; [repeat constructor|]. split; [compute_done|].
    rewrite (entry_get_None _ "Instrument") by (apply Hnone; compute_done).
    done.
  - exists "Position Size".
    split; [repeat constructor|]. split; [compute_done|].
    rewrite (entry_get_None _ "Position Size")
      by (apply Hnone; compute_done). done.
  - exists "Instrument".
    split; [repeat constructor|]. split; [compute_done|].
    rewrite (entry_get_None _ "Instrument") by (apply Hnone; compute_done).
    done.
  - exists "Position Size".
    split; [repeat constructor|]. split; [compute_done|].
    rewrite (entry_get_None _ "Position Size")
      by (apply Hnone; compute_done). done.
  - exists "Trade Size (lots)".
    split; [repeat constructor|]. split; [compute_done|].
    destruct (Hsome "Direction (Long/Short)") as [td Hd];
      [repeat constructor|].
    rewrite (entry_get_Some _ _ _ Hd).
    rewrite (entry_get_None _ "Trade Size (lots)")
      by (apply Hnone; compute_done). done.
Qed.

Lemma X14_form_of_other_type_reports_key_error_witness :
  ∃ key,
    key ∈ calc_fields "Stocks"
    ∧ (key ∉ calc_fields "Futures")
    ∧ sample_calculate_profit "Stocks" es1_calc_entries
        initial_app
      = set_result_label (LabelError (KeyError key)) initial_app.
Proof.
  apply (X14_form_of_other_type_reports_key_error PyFloat.of_decimal
           PyStr.upper_ascii
           "Futures" "Stocks" es1_calc_entries initial_app).
  - compute_done.
  - vm_compute. discriminate.
Defined.

(** X15: pressing Calculate Profit on a form that has just been built, with
    all entries still empty, shows the [ValueError] of the empty text for
    every instrument type, provided the empty text is no number. *)
Theorem X15_blank_form_reports_value_error
    (py_float : string → option float) (py_upper : string → string)
    (choice : string) (st : app) :
  py_float "" = None →
  calculate_profit py_float py_upper choice (update_calc_fields choice) st
  = set_result_label (LabelError (ValueError "")) st.
Proof.
  intros Hblank.
  assert (∀ field, field ∈ calc_fields choice →
            entry_get (update_calc_fields choice) field = Return "")
    as Hget.
  { intros field Hin. apply entry_get_Some.
    by apply update_calc_fields_spec. }
  unfold calculate_profit, calculate_profit_try.
  unfold calc_fields in Hget.
  destruct (String.eqb choice "Stocks") eqn:E1;
    [|destruct (String.eqb choice "Forex") eqn:E2].
  - rewrite (Hget "Position Size") by repeat constructor.
    cbn [mbind result_bind]. by rewrite (to_float_None _ _ Hblank).
  - rewrite (Hget "Direction (Long/Short)") by repeat constructor.
    rewrite (Hget "Trade Size (lots)") by repeat constructor.
    cbn [mbind result_bind]. by rewrite (to_float_None _ _ Hblank).
  - rewrite (Hget "Instrument") by repeat constructor.
    rewrite (Hget "Direction (Long/Short)") by repeat constructor.
    rewrite (Hget "Contracts") by repeat constructor.
    cbn [mbind result_bind]. by rewrite (to_float_None _ _ Hblank).
Qed.

Lemma X15_blank_form_reports_value_error_witness :
  sample_calculate_profit "Futures"
    (update_calc_fields "Futures") initial_app
  = set_result_label (LabelError (ValueError "")) initial_app.
Proof.
  apply (X15_blank_form_reports_value_error PyFloat.of_decimal
           PyStr.upper_ascii "Futures"
           initial_app).
  vm_compute. reflexivity.
Defined.

(** ** Counting, restarting, and directions that are neither *)

(** X16: a refreshed history view has exactly one line per row of the
    table, and deleting a record that a valid view shows leaves a view with
    one line less than the table had rows. *)
Theorem X16_view_counts_rows (st : app) :
  length (history_tree (load_history st)) = size (trades st)
  ∧ (∀ k s selected,
       view_valid st → (k, s) ∈ history_tree st →
       S (length (history_tree (delete_trade (k :: selected) st)))
       = size (trades st)).
Proof.
  split; [apply select_length|].
  intros k s selected Hv Hin. simpl. rewrite select_length.
  destruct (Hv k s Hin) as (r & Hr & _).
  unfold Sqlite.delete_where_id. rewrite map_size_delete_Some by eauto.
  assert (size (trades st) ≠ 0%nat); [|lia].
  intros H0%map_size_empty_iff. by rewrite H0, lookup_empty in Hr.
Qed.

Lemma X16_view_counts_rows_witness :
  let st :=
    load_history
      (sample_run [SaveTrade es1_form 0; SaveTrade nq1_form 0]
         initial_app) in
  S (length (history_tree (delete_trade [2] st))) = 2%nat.
Proof.
  intros st.
  refine (proj2 (X16_view_counts_rows st) 2 (summary_of nq1_row) [] _ _).
  - apply in_sync_valid, load_history_in_sync.
  - vm_compute. repeat constructor.
Defined.

(** X17: the settings live in memory only.  A record saved under a changed
    commission holds that commission, as SQLite keeps a float, when the
    application is started again on the same database, and is listed with
    it, first in the list if the rowids in the table were below the largest
    rowid; the commission setting itself is back at 0.35. *)
Theorem X17_restart_resets_commission_keeps_rows
    (py_float sqlite_numeric : string → option float) (candidate : Z)
    (text : string) (v : float) (data : trade_form) (st st' : app) :
  py_float text = Some v →
  save_trade py_float sqlite_numeric candidate data
    (save_settings py_float text st) = Return st' →
  let st'' := startup (Some (trades st')) in
  let id := Sqlite.new_rowid candidate (trades st) in
  commission_per_contract (settings st'') = 0.35%float
  ∧ trades st'' = trades st'
  ∧ ∃ row,
      trades st'' !! id = Some row
      ∧ commission row = SqlValue.store_real v
      ∧ (id, summary_of row) ∈ history_tree st''
      ∧ (Sqlite.rowids_below Sqlite.max_rowid (trades st) →
         head (history_tree st'') = Some (id, summary_of row)).
Proof.
  intros Hv Hsave.
  apply save_trade_Return in Hsave as (entry & exit & sz & _ & _ & _ & ->).
  unfold save_settings, to_float. rewrite Hv. simpl.
  split; [done|]. split; [done|]. eexists. split; [apply lookup_insert_eq|].
  split; [done|]. split.
  - apply SqliteFacts.elem_of_select. eexists.
    split; [apply lookup_insert_eq|done].
  - intros Hbelow. rewrite SqliteFacts.select_insert_first; [done|].
    intros k Hk. by apply SqliteFacts.new_rowid_above.
Qed.

Lemma X17_restart_resets_commission_keeps_rows_witness :
  ∃ st' row,
    sample_save_trade 0 es1_form
      (save_settings PyFloat.of_decimal "0.5" initial_app) = Return st'
    ∧ commission_per_contract (settings (startup (Some (trades st'))))
      = 0.35%float
    ∧ trades (startup (Some (trades st'))) !! 1 = Some row
    ∧ commission row = Some 0.5%float.
Proof.
  exists (sample_run [SaveSettings "0.5"; SaveTrade es1_form 0]
            initial_app).
  assert (PyFloat.of_decimal "0.5" = Some 0.5%float)
    as Hv by (vm_compute; reflexivity).
  assert (sample_save_trade 0 es1_form
            (save_settings PyFloat.of_decimal "0.5" initial_app)
          = Return
              (sample_run [SaveSettings "0.5"; SaveTrade es1_form 0]
                 initial_app))
    as H by (vm_compute; reflexivity).
  destruct (X17_restart_resets_commission_keeps_rows PyFloat.of_decimal
              sqlite_decimal 0 "0.5" 0.5%float es1_form initial_app _ Hv H)
    as (Hc & _ & row & Hr & Hcr & _).
  exists row. split; [exact H|]. split; [exact Hc|].
  split; [exact Hr | exact Hcr].
Defined.

(** X18: [save_trade] does not check the direction.  A form whose direction
    is not "long" in any letter case, be it "Short", empty or a typing
    error, is saved with the direction as typed; the Saved box shows the
    P&L of a short trade,
    [(entry - exit) * size * 1 - commission * size], and the table holds
    what SQLite keeps of that number. *)
Theorem X18_unchecked_direction_saved_as_short
    (py_float sqlite_numeric : string → option float) (candidate : Z)
    (data : trade_form) (st st' : app) :
  save_trade py_float sqlite_numeric candidate data st = Return st' →
  PyStr.lower (f_direction data) ≠ "long" →
  ∃ entry exit size row,
    py_float (f_entry_price data) = Some entry
    ∧ py_float (f_exit_price data) = Some exit
    ∧ py_float (f_position_size data) = Some size
    ∧ let c := commission_per_contract (settings st) in
      let pnl := ((entry - exit) * size * 1 - c * size)%float in
      trades st' !! Sqlite.new_rowid candidate (trades st) = Some row
      ∧ direction row = f_direction data
      ∧ pnl_net row = SqlValue.store_real pnl
      ∧ head (dialogs st') = Some (InfoTradeSaved pnl).
Proof.
  intros Hsave Hd.
  apply save_trade_Return in Hsave as (entry & exit & sz & He & Hx & Hs & ->).
  exists entry, exit, sz. eexists. do 3 (split; [done|]).
  split; [apply lookup_insert_eq|]. split; [done|].
  simpl. rewrite (calculate_pnl_not_long _ _ _ _ _ _ Hd). done.
Qed.

Lemma X18_unchecked_direction_saved_as_short_witness :
  ∃ st' row,
    sample_save_trade 0 (with_instrument "ES1" long_typo_form) initial_app
    = Return st'
    ∧ trades st' !! 1 = Some row
    ∧ direction row = "Lnog"
    ∧ pnl_net row = Some ((4000 - 4010) * 2 * 1 - 0.35 * 2)%float.
Proof.
  exists (sample_step (SaveTrade (with_instrument "ES1" long_typo_form) 0)
            initial_app).
  assert (sample_save_trade 0 (with_instrument "ES1" long_typo_form)
            initial_app
          = Return
              (sample_step
                 (SaveTrade (with_instrument "ES1" long_typo_form) 0)
                 initial_app))
    as H by (vm_compute; reflexivity).
  assert (PyStr.lower (f_direction (with_instrument "ES1" long_typo_form))
          ≠ "long") as Hd by (vm_compute; discriminate).
  destruct (X18_unchecked_direction_saved_as_short PyFloat.of_decimal
              sqlite_decimal 0 _ initial_app _ H Hd)
    as (entry & exit & sz & row & He & Hx & Hs & Hr & Hdir & Hp & _).
  exists row. split; [exact H|].
  split; [exact Hr|]. split; [exact Hdir|].
  rewrite Hp.
  assert (entry = 4000%float) as ->
    by (apply (inj Some); rewrite <- He; vm_compute; reflexivity).
  assert (exit = 4010%float) as ->
    by (apply (inj Some); rewrite <- Hx; vm_compute; reflexivity).
  assert (sz = 2%float) as ->
    by (apply (inj Some); rewrite <- Hs; vm_compute; reflexivity).
  vm_compute. reflexivity.
Defined.
